(** * create_github_issues.py: task rows to tracker issues

    A shallow embedding of [.github/create_issues/create_github_issues.py]:
    the [Task] record, the payload formatter ([create_issue_body],
    [get_labels_for_task], the issue title), the CSV reader and the batch
    orchestrator, with the properties of the specification proved about them.

    Text is modelled by [string] over the ASCII range, where Python's
    [str.upper], [str.lower], [str.strip], [str.split] and [str.replace] are
    the functions of module [Str] below. *)

From Stdlib Require Import String Ascii List Bool Arith ZArith Lia.
Import ListNotations.
Open Scope string_scope.

(** ** Python string operations *)

Module Str.

Definition is_upper (c : ascii) : bool :=
  (65 <=? nat_of_ascii c)%nat && (nat_of_ascii c <=? 90)%nat.

Definition is_lower (c : ascii) : bool :=
  (97 <=? nat_of_ascii c)%nat && (nat_of_ascii c <=? 122)%nat.

Definition upper_char (c : ascii) : ascii :=
  if is_lower c then ascii_of_nat (nat_of_ascii c - 32) else c.

Definition lower_char (c : ascii) : ascii :=
  if is_upper c then ascii_of_nat (nat_of_ascii c + 32) else c.

Fixpoint map (f : ascii -> ascii) (s : string) : string :=
  match s with
  | EmptyString => EmptyString
  | String c s' => String (f c) (map f s')
  end.

(** [s.upper()] and [s.lower()] *)
Definition upper : string -> string := map upper_char.
Definition lower : string -> string := map lower_char.

(** [bool(s)]: a str is true when it is not empty *)
Definition truthy (s : string) : bool :=
  match s with
  | EmptyString => false
  | String _ _ => true
  end.

Fixpoint drop (n : nat) (s : string) : string :=
  match n, s with
  | O, _ => s
  | S _, EmptyString => EmptyString
  | S k, String _ s' => drop k s'
  end.

(** [s.startswith(p)] *)
Fixpoint starts_with (p s : string) : bool :=
  match p, s with
  | EmptyString, _ => true
  | String _ _, EmptyString => false
  | String a p', String b s' => Ascii.eqb a b && starts_with p' s'
  end.

(** [needle in hay] *)
Fixpoint contains (needle hay : string) : bool :=
  starts_with needle hay
  || match hay with
     | EmptyString => false
     | String _ hay' => contains needle hay'
     end.

(** [s.split(sep)] for a non-empty [sep] (Python raises [ValueError] on an
    empty one, and no call site passes one).  The scan goes left to right;
    [cur] is the piece being read; where [sep] matches, the piece is closed
    and the [length sep - 1] further characters of that occurrence are
    skipped, so occurrences do not overlap. *)
Fixpoint split_from (sep : string) (skip : nat) (cur s : string)
  : list string :=
  match s with
  | EmptyString => [cur]
  | String c s' =>
      match skip with
      | S k => split_from sep k cur s'
      | O =>
          if starts_with sep s
          then cur :: split_from sep (String.length sep - 1) EmptyString s'
          else split_from sep 0 (cur ++ String c EmptyString) s'
      end
  end.

Definition split (sep s : string) : list string :=
  split_from sep 0 EmptyString s.

(** [sep.join(pieces)] *)
Definition join (sep : string) (pieces : list string) : string :=
  String.concat sep pieces.

(** [s.replace(old, new)] for a non-empty [old] *)
Definition replace (old new s : string) : string :=
  join new (split old s).

(** [c.isspace()] on the ASCII range: tab, line feed, vertical tab, form
    feed, carriage return, the four separators 28..31 and the space *)
Definition is_space (c : ascii) : bool :=
  let n := nat_of_ascii c in
  ((9 <=? n)%nat && (n <=? 13)%nat) || ((28 <=? n)%nat && (n <=? 32)%nat).

Fixpoint lstrip (s : string) : string :=
  match s with
  | EmptyString => EmptyString
  | String c s' => if is_space c then lstrip s' else s
  end.

Fixpoint rstrip (s : string) : string :=
  match s with
  | EmptyString => EmptyString
  | String c s' =>
      match rstrip s' with
      | EmptyString => if is_space c then EmptyString else String c EmptyString
      | r => String c r
      end
  end.

(** [s.strip()] *)
Definition strip (s : string) : string := rstrip (lstrip s).




Definition first_char (s : string) : option ascii :=
  match s with
  | EmptyString => None
  | String c _ => Some c
  end.

(** [sub] occurs in [s] *)
Definition occurs (sub s : string) : Prop :=
  exists pre post, s = pre ++ sub ++ post.

(** two texts are equal up to the case of their letters *)
Definition caseless_eq (a b : string) : Prop := lower a = lower b.

(** [kw] occurs in [s] up to the case of the letters *)
Definition occurs_caseless (kw s : string) : Prop :=
  exists pre mid post, s = pre ++ mid ++ post /\ caseless_eq mid kw.

End Str.

(** ** The task record *)

(** [class Task]: one row of the table; every field is text. *)
Record Task : Type := mkTask {
  task_id : string;
  task_name : string;
  phase : string;
  week : string;
  duration : string;
  assignee : string;
  dependencies : string;
  priority : string;
  status : string;
  start_date : string;
  end_date : string;
  deliverables : string;
  acceptance_criteria : string;
  automation_category : string;
  manus_tasks : string;
  human_tasks : string;
  notes : string
}.

(** ** Payload formatter *)

(** [chr(10)] *)
Definition nl : string := String "010"%char EmptyString.

(** A template given line by line: the lines joined by line feeds. *)
Definition lines (ls : list string) : string := Str.join nl ls.

(** The loop of [create_issue_body] that turns a comma-and-space separated
    field into checkbox lines: nothing for an empty field, else one line per
    piece of [field.split(", ")], the piece stripped. *)
Definition checkbox (entry : string) : string := "- [ ] " ++ Str.strip entry.

Definition checklist (field : string) : list string :=
  if Str.truthy field
  then List.map checkbox (Str.split ", " field)
  else [].

(** [chr(10).join(items) if items else "- [ ] To be defined"] *)
Definition checklist_text (items : list string) : string :=
  match items with
  | [] => "- [ ] To be defined"
  | _ :: _ => Str.join nl items
  end.

Definition human_section : string :=
  lines [ "";
          "## Description";
          "Brief description of what needs to be done by a human team member.";
          "";
          "**HUMAN Only:** This task requires human intervention for strategic decisions, user research, or quality validation.";
          "";
          "## Human Actions Required";
          "- [ ] Account setup/management";
          "- [ ] Strategic decisions";
          "- [ ] User research";
          "- [ ] Quality validation";
          "- [ ] Legal/compliance review";
          "- [ ] Other: ___________" ].

Definition human_done : string :=
  lines [ "";
          "## Definition of Done";
          "- [ ] Documentation updated";
          "- [ ] All required actions completed";
          "- [ ] Next steps identified";
          "- [ ] Stakeholders notified" ].

Definition manus_section : string :=
  lines [ "";
          "## Description";
          "Brief description of what needs to be implemented using AI automation.";
          "";
          "**MANUS Only:** This task can be fully automated using AI tools and does not require human intervention.";
          "";
          "## Manus Implementation Required";
          "- [ ] Code generation";
          "- [ ] Configuration files";
          "- [ ] Documentation";
          "- [ ] Testing framework";
          "- [ ] Other: ___________" ].

Definition manus_done : string :=
  lines [ "";
          "## Definition of Done";
          "- [ ] Code implemented and tested";
          "- [ ] Tests passing";
          "- [ ] Ready for human review" ].

Definition split_section : string :=
  lines [ "";
          "## Description";
          "Brief description of what needs to be done through combined human and AI efforts.";
          "";
          "**SPLIT Only:** This task is split between human and AI efforts.";
          "";
          "## Split Implementation Required";
          "- [ ] Manus automation";
          "- [ ] Human oversight";
          "- [ ] Integration validation";
          "- [ ] Other: ___________" ].

Definition split_done : string :=
  lines [ "";
          "## Definition of Done";
          "- [ ] Manus automation completed";
          "- [ ] Human oversight completed";
          "- [ ] Integration validated";
          "- [ ] Ready for next phase" ].

(** The [if]/[elif] chain on [task.automation_category.upper()]; the pair is
    ([automation_section], [definition_of_done]), both [""] to begin with. *)
Definition automation_blocks (task : Task) : string * string :=
  if Str.upper (automation_category task) =? "HUMAN"
  then (human_section, human_done)
  else if Str.upper (automation_category task) =? "MANUS"
  then (manus_section, manus_done)
  else if Str.upper (automation_category task) =? "SPLIT"
  then (split_section, split_done)
  else ("", "").

Definition automation_section (task : Task) : string :=
  fst (automation_blocks task).

Definition definition_of_done (task : Task) : string :=
  snd (automation_blocks task).

(** The lines of the body template up to the priority line. *)
Definition body_overview (task : Task) : list string :=
  [ "## Task Overview";
    "**Task ID:** " ++ task_id task;
    "**Phase:** " ++ phase task;
    "**Week:** " ++ week task;
    "**Duration:** " ++ duration task ++ " days";
    "**Priority:** " ++ priority task ].

(** From the line after [{automation_section}] to the notes. *)
Definition body_sections (task : Task) : list string :=
  [ "";
    "## Deliverables";
    checklist_text (checklist (deliverables task));
    "";
    "## Acceptance Criteria";
    checklist_text (checklist (acceptance_criteria task));
    "";
    "## Dependencies";
    "List any tasks that must be completed before this one:";
    (if Str.truthy (dependencies task)
     then "- " ++ dependencies task else "None");
    "";
    "## Resources Needed";
    "- Access to: ___________";
    "- Credentials for: ___________";
    "- Approval from: ___________";
    "";
    "## Notes";
    (if Str.truthy (notes task) then notes task else "No additional notes") ].

(** From the line after [{definition_of_done}] to the end; the template ends
    with a line feed, hence the last, empty line. *)
Definition body_footer (task : Task) : list string :=
  [ "";
    "---";
    "";
    "**Start Date:** " ++ start_date task ++ "  ";
    "**End Date:** " ++ end_date task ++ "  ";
    "**Assignee:** " ++ assignee task ++ "  ";
    "**Status:** " ++ status task ++ "  ";
    "" ].

(** [GitHubIssueCreator.create_issue_body] *)
Definition create_issue_body (task : Task) : string :=
  lines (body_overview task
         ++ [automation_section task]
         ++ body_sections task
         ++ [definition_of_done task]
         ++ body_footer task)%list.

(** [l.append(x)] on a Python list *)
Definition push {A : Type} (l : list A) (x : A) : list A := (l ++ [x])%list.

(** [GitHubIssueCreator.get_labels_for_task]; [labels.append(x)] is
    [push labels x]. *)
Definition get_labels_for_task (task : Task) : list string :=
  let labels : list string := [] in
  let labels :=
    if Str.truthy (status task)
    then
      let status_label := Str.replace " " "-" (Str.lower (status task)) in
      push labels ("status:" ++ status_label)
    else labels in
  let labels :=
    if Str.truthy (phase task)
    then push labels ("phase:" ++ phase task)
    else labels in
  let labels :=
    if Str.truthy (automation_category task)
    then push labels ("automation:" ++ Str.lower (automation_category task))
    else labels in
  let labels :=
    if Str.truthy (assignee task)
    then
      let labels :=
        if Str.contains "technical lead" (Str.lower (assignee task))
        then push labels ("role:technical-lead") else labels in
      let labels :=
        if Str.contains "ai/ml engineer" (Str.lower (assignee task))
        then push labels ("role:ai-ml-engineer") else labels in
      let labels :=
        if Str.contains "frontend developer" (Str.lower (assignee task))
        then push labels ("role:frontend-developer") else labels in
      let labels :=
        if Str.contains "product manager" (Str.lower (assignee task))
        then push labels ("role:product-manager") else labels in
      let labels :=
        if Str.contains "devops engineer" (Str.lower (assignee task))
        then push labels ("role:devops-engineer") else labels in
      labels
    else labels in
  push labels ("task").

(** The title built in [create_issue]:
    [f"{task.task_id}: [{task.automation_category.upper()}] {task.task_name}"] *)
Definition issue_title (task : Task) : string :=
  task_id task ++ ": [" ++ Str.upper (automation_category task) ++ "] "
  ++ task_name task.

(** ** The tracker, the console and the input file *)

(** The payload of a [session.post]: on [/labels], [/milestones] (with
    [state] open) and [/issues]. *)
Inductive request : Type :=
| PostLabel (name color description : string)
| PostMilestone (title description : string) (due_on : option string)
| PostIssue (title body : string) (labels : list string).

(** What [response.json()] gives: it raises ([NoJson]), or decodes a value,
    of which the code reads only the ["number"] entry ([None] when the value
    has none, so that [issue['number']] raises). *)
Inductive json_value : Type :=
| NoJson
| Json (number : option Z).

Record response : Type := mkResponse {
  status_code : Z;
  json : json_value;
  text : string
}.

(** [session.post] returns a response or raises (a transport error). *)
Inductive outcome : Type :=
| Raises
| Returns (r : response).

(** The remote tracker: its answer to the latest request of those sent so
    far (the latest is the last of the list). *)
Definition tracker : Type := list request -> outcome.

(** The lines printed; each constructor is one [print] of the script. *)
Inductive line : Type :=
| ReadingTasks (csv_file : string)
| CsvNotFound (csv_file : string)
| CsvReadError
| FoundTasks (n : nat)
| CreatingLabels
| LabelCreated (name : string)
| LabelExists (name : string)
| LabelFailed (name : string) (code : Z)
| LabelError (name : string)
| LabelsCompleted
| CreatingMilestones
| MilestoneCreated (name : string)
| MilestoneExists (name : string)
| MilestoneFailed (name : string) (code : Z)
| MilestoneError (name : string)
| MilestonesCompleted
| CreatingIssues
| IssueCreated (number : Z) (id name : string)
| IssueFailed (id : string) (code : Z)
| IssueResponse (text : string)
| IssueError (id : string)
| SummaryHeader
| SummaryCreated (n : nat)
| SummaryFailed (n : nat)
| SummaryTotal (n : nat).

(** What a run has done so far: the requests sent and the lines printed,
    both oldest first. *)
Record world : Type := mkWorld {
  sent : list request;
  console : list line
}.

(** A computation returns a value or leaves through [sys.exit(code)]. *)
Inductive result (A : Type) : Type :=
| Ok (a : A)
| Exit (code : Z).
Arguments Ok {A} a.
Arguments Exit {A} code.

Definition M (A : Type) : Type := world -> result A * world.

Definition ret {A : Type} (a : A) : M A := fun w => (Ok a, w).

Definition bind {A B : Type} (m : M A) (k : A -> M B) : M B :=
  fun w =>
    match m w with
    | (Ok a, w') => k a w'
    | (Exit code, w') => (Exit code, w')
    end.

Notation "x <- m ;; k" := (bind m (fun x => k))
  (at level 61, m at next level, right associativity).
Notation "m ;; k" := (bind m (fun _ => k))
  (at level 61, right associativity).

Definition print (l : line) : M unit :=
  fun w => (Ok tt, mkWorld (sent w) (push (console w) l)).

Definition sys_exit {A : Type} (code : Z) : M A :=
  fun w => (Exit code, w).

(** [session.post(url, json=payload)] against the tracker [tr] *)
Definition post (tr : tracker) (req : request) : M outcome :=
  fun w =>
    let sent' := push (sent w) req in
    (Ok (tr sent'), mkWorld sent' (console w)).

(** [for x in xs: body(x)] *)
Fixpoint for_each {A : Type} (xs : list A) (body : A -> M unit) : M unit :=
  match xs with
  | [] => ret tt
  | x :: xs' => body x ;; for_each xs' body
  end.

(** The parsed input: the header that [csv.DictReader] reads and its data
    rows; a row gives the cell of every column of the header. *)
Record table : Type := mkTable {
  fieldnames : list string;
  rows : list (string -> string)
}.

(** What [open(csv_file)] finds at a path: nothing ([FileNotFoundError]), a
    file that cannot be read or decoded (another exception), or a table. *)
Inductive path_state : Type :=
| NoSuchFile
| Unreadable
| Csv (t : table).

Definition file_system : Type := string -> path_state.

(** [row[key]]: [None] is [KeyError], raised when the header lacks [key]. *)
Definition row_get (t : table) (row : string -> string) (key : string)
  : option string :=
  if existsb (String.eqb key) (fieldnames t) then Some (row key) else None.

Notation "'let?' x ':=' e 'in' k" :=
  (match e with Some x => k | None => None end)
  (at level 10, x name, e at level 100, k at level 200).

(** The [Task(...)] call of the reader's loop; the keyword arguments are
    evaluated in this order. *)
Definition task_of_row (t : table) (row : string -> string) : option Task :=
  let? a1 := row_get t row "Task ID" in
  let? a2 := row_get t row "Task Name" in
  let? a3 := row_get t row "Phase" in
  let? a4 := row_get t row "Week" in
  let? a5 := row_get t row "Duration (Days)" in
  let? a6 := row_get t row "Assignee" in
  let? a7 := row_get t row "Dependencies" in
  let? a8 := row_get t row "Priority" in
  let? a9 := row_get t row "Status" in
  let? a10 := row_get t row "Start Date" in
  let? a11 := row_get t row "End Date" in
  let? a12 := row_get t row "Deliverables" in
  let? a13 := row_get t row "Acceptance Criteria" in
  let? a14 := row_get t row "Automation Category" in
  let? a15 := row_get t row "Manus Tasks" in
  let? a16 := row_get t row "Human Tasks" in
  let? a17 := row_get t row "Notes" in
  Some (mkTask a1 a2 a3 a4 a5 a6 a7 a8 a9 a10 a11 a12 a13 a14 a15 a16 a17).

(** The columns the reader looks up. *)
Definition required_columns : list string :=
  [ "Task ID"; "Task Name"; "Phase"; "Week"; "Duration (Days)"; "Assignee";
    "Dependencies"; "Priority"; "Status"; "Start Date"; "End Date";
    "Deliverables"; "Acceptance Criteria"; "Automation Category";
    "Manus Tasks"; "Human Tasks"; "Notes" ].

(** [for row in reader: tasks.append(Task(...))]; [None] when a lookup
    raises. *)
Fixpoint read_rows (t : table) (rs : list (string -> string))
  (tasks : list Task) : option (list Task) :=
  match rs with
  | [] => Some tasks
  | row :: rs' =>
      let? task := task_of_row t row in
      read_rows t rs' (push tasks task)
  end.

(** [GitHubIssueCreator.read_tasks_from_csv] *)
Definition read_tasks_from_csv (fs : file_system) (csv_file : string)
  : M (list Task) :=
  match fs csv_file with
  | NoSuchFile => print (CsvNotFound csv_file) ;; sys_exit 1
  | Unreadable => print CsvReadError ;; sys_exit 1
  | Csv t =>
      match read_rows t (rows t) [] with
      | Some tasks => ret tasks
      | None => print CsvReadError ;; sys_exit 1
      end
  end.

(** ** Batch orchestrator *)

(** The payload [issue_data] that [create_issue] builds for a task. *)
Definition issue_request (task : Task) : request :=
  PostIssue (issue_title task) (create_issue_body task)
            (get_labels_for_task task).

(** The payload of [create_label]: the entry of the catalog itself, with
    its name, color and description. *)
Definition label_request (label : string * string * string) : request :=
  PostLabel (fst (fst label)) (snd (fst label)) (snd label).

(** [milestone_data] of [create_milestone]: [due_on] is set when [due_date]
    is given and not empty. *)
Definition milestone_data (name description : string)
  (due_date : option string) : request :=
  PostMilestone name description
    match due_date with
    | Some d => if Str.truthy d then Some d else None
    | None => None
    end.

Section Orchestrator.

Variable tr : tracker.

(** [GitHubIssueCreator.create_issue]: the payload is built before the
    [try]; the result is the number of the created issue, standing for the
    returned dict (which has a ["number"] entry, so it is true in
    [if issue:]), or [None]. *)
Definition create_issue (task : Task) : M (option Z) :=
  let issue_data := issue_request task in
  o <- post tr issue_data ;;
  match o with
  | Returns response =>
      if (status_code response =? 201)%Z
      then
        match json response with
        | Json (Some number) =>
            print (IssueCreated number (task_id task) (task_name task)) ;;
            ret (Some number)
        | Json None | NoJson =>
            print (IssueError (task_id task)) ;; ret None
        end
      else
        print (IssueFailed (task_id task) (status_code response)) ;;
        print (IssueResponse (text response)) ;;
        ret None
  | Raises => print (IssueError (task_id task)) ;; ret None
  end.

(** [labels_to_create]: name, color, description *)
Definition labels_to_create : list (string * string * string) :=
  [ ("priority:high", "d73a4a", "High priority task");
    ("priority:medium", "fbca04", "Medium priority task");
    ("priority:low", "0e8a16", "Low priority task");
    ("phase:1", "1f77b4", "Phase 1 task");
    ("phase:2", "ff7f0e", "Phase 2 task");
    ("phase:3", "2ca02c", "Phase 3 task");
    ("phase:4", "d62728", "Phase 4 task");
    ("status:todo", "e4e669", "Task not started");
    ("status:in-progress", "0052cc", "Task in progress");
    ("status:closed", "0e8a16", "Task completed");
    ("status:blocked", "d73a4a", "Task blocked");
    ("automation:manus", "8b5cf6", "Can be automated by Manus");
    ("automation:human", "f59e0b", "Requires human intervention");
    ("automation:split", "06b6d4", "Mixed automation and human tasks");
    ("role:technical-lead", "ff6b6b", "Technical Lead tasks");
    ("role:ai-ml-engineer", "4ecdc4", "AI/ML Engineer tasks");
    ("role:frontend-developer", "45b7d1", "Frontend Developer tasks");
    ("role:product-manager", "f9ca24", "Product Manager tasks");
    ("role:devops-engineer", "6c5ce7", "DevOps Engineer tasks");
    ("task", "7057ff", "General task") ].

(** The body of the loop of [create_labels]. *)
Definition create_label (label : string * string * string) : M unit :=
  let name := fst (fst label) in
  o <- post tr (label_request label) ;;
  match o with
  | Returns response =>
      if (status_code response =? 201)%Z then print (LabelCreated name)
      else if (status_code response =? 422)%Z then print (LabelExists name)
      else print (LabelFailed name (status_code response))
  | Raises => print (LabelError name)
  end.

(** [GitHubIssueCreator.create_labels] *)
Definition create_labels : M unit :=
  print CreatingLabels ;;
  for_each labels_to_create create_label ;;
  print LabelsCompleted.

(** [GitHubIssueCreator.create_milestone] *)
Definition create_milestone (name description : string)
  (due_date : option string) : M (option json_value) :=
  o <- post tr (milestone_data name description due_date) ;;
  match o with
  | Returns response =>
      if (status_code response =? 201)%Z
      then
        match json response with
        | Json number =>
            print (MilestoneCreated name) ;; ret (Some (Json number))
        | NoJson => print (MilestoneError name) ;; ret None
        end
      else if (status_code response =? 422)%Z
      then print (MilestoneExists name) ;; ret None
      else print (MilestoneFailed name (status_code response)) ;; ret None
  | Raises => print (MilestoneError name) ;; ret None
  end.

(** [milestones]: name, description, due date *)
Definition milestones : list (string * string * string) :=
  [ ("Phase 1: Core Backend Development",
     "Foundation setup and core processing functions",
     "2025-08-14T23:59:59Z");
    ("Phase 2: WhatsApp Integration",
     "WhatsApp integration and enhanced features",
     "2025-09-13T23:59:59Z");
    ("Phase 3: Multi-Platform Expansion",
     "Google Assistant integration and legacy features",
     "2025-11-07T23:59:59Z");
    ("Phase 4: Advanced AI and Launch",
     "Machine learning integration and production launch",
     "2025-12-30T23:59:59Z") ].

(** [GitHubIssueCreator.create_milestones] *)
Definition create_milestones : M unit :=
  print CreatingMilestones ;;
  for_each milestones
    (fun milestone =>
       create_milestone (fst (fst milestone)) (snd (fst milestone))
         (Some (snd milestone)) ;;
       ret tt) ;;
  print MilestonesCompleted.

(** The issue loop of [process_all_tasks] with its two counters. *)
Fixpoint issue_loop (tasks : list Task) (success_count failed_count : nat)
  : M (nat * nat) :=
  match tasks with
  | [] => ret (success_count, failed_count)
  | task :: tasks' =>
      issue <- create_issue task ;;
      match issue with
      | Some _ => issue_loop tasks' (success_count + 1) failed_count
      | None => issue_loop tasks' success_count (failed_count + 1)
      end
  end.

(** [GitHubIssueCreator.process_all_tasks] *)
Definition process_all_tasks (fs : file_system) (csv_file : string)
  : M unit :=
  print (ReadingTasks csv_file) ;;
  tasks <- read_tasks_from_csv fs csv_file ;;
  print (FoundTasks (List.length tasks)) ;;
  create_labels ;;
  create_milestones ;;
  print CreatingIssues ;;
  counts <- issue_loop tasks 0 0 ;;
  print SummaryHeader ;;
  print (SummaryCreated (fst counts)) ;;
  print (SummaryFailed (snd counts)) ;;
  print (SummaryTotal (List.length tasks)).

End Orchestrator.

(** A world in which nothing has happened yet. *)
Definition start : world := mkWorld [] [].

(** The requests of a run that create issues. *)
Definition is_issue (r : request) : bool :=
  match r with
  | PostIssue _ _ _ => true
  | _ => false
  end.

(** ** The specification's reading of the formatter *)


(** The role keywords of the specification, each with the slug of its
    [role:] label. *)
Definition role_table : list (string * string) :=
  [ ("technical lead", "technical-lead");
    ("ai/ml engineer", "ai-ml-engineer");
    ("frontend developer", "frontend-developer");
    ("product manager", "product-manager");
    ("devops engineer", "devops-engineer") ].


(** Every space replaced by a hyphen. *)
Definition hyphenate (s : string) : string :=
  Str.map (fun c => if Ascii.eqb c " " then "-"%char else c) s.

(** The labels by the field they come from; [labels_by_field] below shows
    that [get_labels_for_task] lists them in this order. *)
Definition status_labels (task : Task) : list string :=
  if Str.truthy (status task)
  then ["status:" ++ Str.replace " " "-" (Str.lower (status task))]
  else [].

Definition phase_labels (task : Task) : list string :=
  if Str.truthy (phase task) then ["phase:" ++ phase task] else [].

Definition automation_labels (task : Task) : list string :=
  if Str.truthy (automation_category task)
  then ["automation:" ++ Str.lower (automation_category task)]
  else [].

Definition role_labels (task : Task) : list string :=
  if Str.truthy (assignee task)
  then
    List.map (fun e => "role:" ++ snd e)
      (List.filter (fun e => Str.contains (fst e) (Str.lower (assignee task)))
         role_table)
  else [].

(** ** Sample data *)

(** A task with the given identifier, assignee, status, deliverables and
    automation category; the other fields are fixed. *)
Definition sample_task (id who st deliv cat : string) : Task :=
  {| task_id := id;
     task_name := "Set up the repository";
     phase := "1";
     week := "1";
     duration := "2";
     assignee := who;
     dependencies := "";
     priority := "High";
     status := st;
     start_date := "2025-07-15";
     end_date := "2025-07-16";
     deliverables := deliv;
     acceptance_criteria := "Builds pass, Review done";
     automation_category := cat;
     manus_tasks := "";
     human_tasks := "";
     notes := "" |}.

(** A tracker that creates whatever it is asked to, numbering the
    requests; one that reports a conflict for every label and milestone and
    refuses every second issue; one that cannot be reached; one that refuses
    everything. *)
Definition always_created : tracker :=
  fun reqs => Returns (mkResponse 201 (Json (Some (Z.of_nat (List.length reqs)))) "").

Definition conflicts_and_refusals : tracker :=
  fun reqs =>
    match last reqs (PostLabel "" "" "") with
    | PostIssue _ _ _ =>
        if Nat.even (List.length reqs)
        then Returns (mkResponse 201 (Json (Some 7%Z)) "")
        else Returns (mkResponse 403 NoJson "Forbidden")
    | _ => Returns (mkResponse 422 NoJson "Validation Failed")
    end.

Definition unreachable : tracker := fun _ => Raises.

Definition forbidden : tracker :=
  fun _ => Returns (mkResponse 403 NoJson "Forbidden").

(** The row of a table that holds the fields of a task. *)
Definition row_of_task (task : Task) : string -> string :=
  fun key =>
    if key =? "Task ID" then task_id task
    else if key =? "Task Name" then task_name task
    else if key =? "Phase" then phase task
    else if key =? "Week" then week task
    else if key =? "Duration (Days)" then duration task
    else if key =? "Assignee" then assignee task
    else if key =? "Dependencies" then dependencies task
    else if key =? "Priority" then priority task
    else if key =? "Status" then status task
    else if key =? "Start Date" then start_date task
    else if key =? "End Date" then end_date task
    else if key =? "Deliverables" then deliverables task
    else if key =? "Acceptance Criteria" then acceptance_criteria task
    else if key =? "Automation Category" then automation_category task
    else if key =? "Manus Tasks" then manus_tasks task
    else if key =? "Human Tasks" then human_tasks task
    else if key =? "Notes" then notes task
    else "".

(** The two-row table of the end-to-end scenario, a table with the same rows
    whose header lacks the [Notes] column, and one with that header and no
    row; a file system that holds them. *)
Definition two_tasks : list Task :=
  [ sample_task "T1" "Technical Lead" "To Do" "Repo, CI pipeline" "Human";
    sample_task "T2" "DevOps Engineer" "Closed" "" "Manus" ].

Definition two_rows : table :=
  mkTable required_columns (List.map row_of_task two_tasks).

Definition two_rows_no_notes : table :=
  mkTable (removelast required_columns) (List.map row_of_task two_tasks).

Definition header_without_notes : table :=
  mkTable (removelast required_columns) [].

Definition sample_files : file_system :=
  fun path =>
    if path =? "tasks_redesigned.csv" then Csv two_rows
    else if path =? "no_notes.csv" then Csv two_rows_no_notes
    else if path =? "header_only.csv" then Csv header_without_notes
    else if path =? "locked.csv" then Unreadable
    else NoSuchFile.

(** A task all of whose fields are empty. *)
Definition blank_task : Task :=
  mkTask "" "" "" "" "" "" "" "" "" "" "" "" "" "" "" "" "".

(** ** The runs of the orchestrator, described *)

(** What [create_issue] returns and prints for the tracker's answer. *)
Definition issue_created (o : outcome) : option Z :=
  match o with
  | Raises => None
  | Returns r =>
      if (status_code r =? 201)%Z
      then match json r with
           | Json (Some number) => Some number
           | _ => None
           end
      else None
  end.

Definition issue_lines (task : Task) (o : outcome) : list line :=
  match o with
  | Raises => [IssueError (task_id task)]
  | Returns r =>
      if (status_code r =? 201)%Z
      then
        match json r with
        | Json (Some number) =>
            [IssueCreated number (task_id task) (task_name task)]
        | _ => [IssueError (task_id task)]
        end
      else [IssueFailed (task_id task) (status_code r);
            IssueResponse (text r)]
  end.

(** The line that [create_label] prints for the tracker's answer, and the
    one that [create_milestone] prints. *)
Definition label_line (name : string) (o : outcome) : line :=
  match o with
  | Raises => LabelError name
  | Returns r =>
      if (status_code r =? 201)%Z then LabelCreated name
      else if (status_code r =? 422)%Z then LabelExists name
      else LabelFailed name (status_code r)
  end.

Definition milestone_line (name : string) (o : outcome) : line :=
  match o with
  | Raises => MilestoneError name
  | Returns r =>
      if (status_code r =? 201)%Z
      then match json r with
           | Json _ => MilestoneCreated name
           | NoJson => MilestoneError name
           end
      else if (status_code r =? 422)%Z then MilestoneExists name
      else MilestoneFailed name (status_code r)
  end.

(** The requests of the label and milestone bootstrap, in order. *)
Definition bootstrap_requests : list request :=
  (List.map label_request labels_to_create
   ++ List.map
        (fun m => milestone_data (fst (fst m)) (snd (fst m)) (Some (snd m)))
        milestones)%list.

Definition is_created_line (l : line) : bool :=
  match l with
  | IssueCreated _ _ _ => true
  | _ => false
  end.

(** The lines that mark an item as failed, as opposed to created or
    already there. *)
Definition is_failure_line (l : line) : bool :=
  match l with
  | LabelFailed _ _ | LabelError _ | MilestoneFailed _ _ | MilestoneError _
  | IssueFailed _ _ | IssueError _ => true
  | _ => false
  end.

(** The task that the reader builds from a row whose header has every
    column: the cells of the columns, in the order of the fields. *)
Definition row_task (row : string -> string) : Task :=
  mkTask (row "Task ID") (row "Task Name") (row "Phase") (row "Week")
    (row "Duration (Days)") (row "Assignee") (row "Dependencies")
    (row "Priority") (row "Status") (row "Start Date") (row "End Date")
    (row "Deliverables") (row "Acceptance Criteria")
    (row "Automation Category") (row "Manus Tasks") (row "Human Tasks")
    (row "Notes").

(** ** The entry point *)

(** [s * n] on a str: [n] copies, none when [n] is zero or negative. *)
Fixpoint copies (s : string) (n : nat) : string :=
  match n with
  | O => EmptyString
  | S k => s ++ copies s k
  end.

Definition str_repeat (s : string) (n : Z) : string :=
  copies s (Z.to_nat n).

(** [s[i:]], the slice from index [i]; a negative [i] counts from the end,
    and an index outside the text is clamped to it. *)
Definition slice_from (i : Z) (s : string) : string :=
  let len := Z.of_nat (String.length s) in
  let first := if (i <? 0)%Z then Z.max (len + i) 0 else Z.min i len in
  Str.drop (Z.to_nat first) s.

(** The token as [main] prints it:
    [f"{'*' * (len(github_token) - 4)}{github_token[-4:]}"] *)
Definition masked_token (github_token : string) : string :=
  str_repeat "*" (Z.of_nat (String.length github_token) - 4)
  ++ slice_from (-4) github_token.

(** The environment of the process, and [os.getenv(key, default)]. *)
Definition environment : Type := string -> option string.

Definition getenv (env : environment) (key default : string) : string :=
  match env key with
  | Some value => value
  | None => default
  end.

(** [GitHubIssueCreator.__init__]: the address of the repository and the
    authorization header of the session. *)
Definition base_url (repo_owner repo_name : string) : string :=
  "https://api.github.com/repos/" ++ repo_owner ++ "/" ++ repo_name.

Definition authorization (token : string) : string := "token " ++ token.

(** The network: the tracker reached at an address with an authorization
    header. *)
Definition network : Type := string -> string -> tracker.

(** The lines that [main] itself prints, the prompt of [input] included. *)
Inductive main_line : Type :=
| TokenRequired
| TokenPlease
| TokenExport
| Repository (repo_owner repo_name : string)
| CsvFile (csv_file : string)
| TokenMasked (shown : string)
| EmptyLine
| ProceedPrompt
| OperationCancelled.

(** A run of [main]: how it ends, what [main] printed, and what the
    orchestrator did. *)
Record main_run : Type := mkMainRun {
  ending : result unit;
  main_console : list main_line;
  orchestrated : world
}.

(** [main], given the environment, the line that [input] reads, the network
    and the files. *)
Definition main (env : environment) (confirm : string) (net : network)
  (fs : file_system) : main_run :=
  let github_token := env "GITHUB_TOKEN" in
  match github_token with
  | None | Some EmptyString =>
      mkMainRun (Exit 1) [TokenRequired; TokenPlease; TokenExport] start
  | Some github_token =>
      let repo_owner := getenv env "GITHUB_REPO_OWNER" "bianca-git" in
      let repo_name := getenv env "GITHUB_REPO_NAME" "fylgja" in
      let csv_file := getenv env "TASKS_CSV_FILE" "tasks_redesigned.csv" in
      let printed :=
        [ Repository repo_owner repo_name;
          CsvFile csv_file;
          TokenMasked (masked_token github_token);
          EmptyLine;
          ProceedPrompt ] in
      if negb (Str.lower confirm =? "y")
      then mkMainRun (Exit 0) (push printed OperationCancelled) start
      else
        let creator :=
          net (base_url repo_owner repo_name) (authorization github_token) in
        let (r, w) := process_all_tasks creator fs csv_file start in
        mkMainRun r printed w
  end.

(** An environment with the token only, and one that sets everything. *)
Definition token_only : environment :=
  fun key => if key =? "GITHUB_TOKEN" then Some "ghp_0123456789" else None.

Definition full_environment : environment :=
  fun key =>
    if key =? "GITHUB_TOKEN" then Some "abc"
    else if key =? "GITHUB_REPO_OWNER" then Some "octo"
    else if key =? "GITHUB_REPO_NAME" then Some ""
    else if key =? "TASKS_CSV_FILE" then Some "no_notes.csv"
    else None.

Definition no_environment : environment := fun _ => None.

(** A network whose tracker creates everything, wherever it is. *)
Definition open_network : network := fun _ _ => always_created.

(** The names of the label catalog. *)
Definition catalog_names : list string :=
  List.map (fun label => fst (fst label)) labels_to_create.

(** The prefixes of the labels made from the fields of a task. *)
Definition label_prefixes : list string :=
  ["status:"; "phase:"; "automation:"; "role:"].

(** ** Running the string operations *)

Example upper_ex : Str.upper "Human-1z" = "HUMAN-1Z".
Proof. reflexivity. Qed.

Example lower_ex : Str.lower "In Progress [A-Z]" = "in progress [a-z]".
Proof. reflexivity. Qed.

Example split_ex1 : Str.split ", " "a, b,c,  d, " = ["a"; "b,c"; " d"; ""].
Proof. reflexivity. Qed.

Example split_ex2 : Str.split ", " "" = [""].
Proof. reflexivity. Qed.

Example split_ex3 : Str.split "aa" "aaaxaa" = [""; "ax"; ""].
Proof. reflexivity. Qed.

Example replace_ex : Str.replace " " "-" "a  b c " = "a--b-c-".
Proof. reflexivity. Qed.

Example strip_ex : Str.strip "  a b  " = "a b".
Proof. reflexivity. Qed.

Example contains_ex :
  Str.contains "ab" "xxabx" = true /\ Str.contains "ab" "xxa" = false.
Proof. split; reflexivity. Qed.

Example masked_token_ex :
  masked_token "ghp_0123456789" = "**********6789"
  /\ masked_token "abc" = "abc" /\ masked_token "" = "".
Proof. repeat split. Qed.

Example slice_from_ex :
  slice_from (-4) "abcdef" = "cdef" /\ slice_from (-4) "ab" = "ab"
  /\ slice_from 2 "abcdef" = "cdef" /\ slice_from 9 "ab" = "".
Proof. repeat split. Qed.

(** ** Running the formatter *)

Example labels_ex :
  get_labels_for_task
    (sample_task "T1" "Technical Lead / DevOps engineer" "To Do" "" "Human")
  = [ "status:to-do"; "phase:1"; "automation:human"; "role:technical-lead";
      "role:devops-engineer"; "task" ].
Proof. reflexivity. Qed.

Example labels_blank_ex : get_labels_for_task blank_task = ["task"].
Proof. reflexivity. Qed.

Example body_ex :
  create_issue_body
    (sample_task "T1" "Technical Lead" "To Do" "Repo,  CI pipeline" "human")
  = lines
      [ "## Task Overview";
        "**Task ID:** T1";
        "**Phase:** 1";
        "**Week:** 1";
        "**Duration:** 2 days";
        "**Priority:** High";
        "";
        "## Description";
        "Brief description of what needs to be done by a human team member.";
        "";
        "**HUMAN Only:** This task requires human intervention for strategic decisions, user research, or quality validation.";
        "";
        "## Human Actions Required";
        "- [ ] Account setup/management";
        "- [ ] Strategic decisions";
        "- [ ] User research";
        "- [ ] Quality validation";
        "- [ ] Legal/compliance review";
        "- [ ] Other: ___________";
        "";
        "## Deliverables";
        "- [ ] Repo";
        "- [ ] CI pipeline";
        "";
        "## Acceptance Criteria";
        "- [ ] Builds pass";
        "- [ ] Review done";
        "";
        "## Dependencies";
        "List any tasks that must be completed before this one:";
        "None";
        "";
        "## Resources Needed";
        "- Access to: ___________";
        "- Credentials for: ___________";
        "- Approval from: ___________";
        "";
        "## Notes";
        "No additional notes";
        "";
        "## Definition of Done";
        "- [ ] Documentation updated";
        "- [ ] All required actions completed";
        "- [ ] Next steps identified";
        "- [ ] Stakeholders notified";
        "";
        "---";
        "";
        "**Start Date:** 2025-07-15  ";
        "**End Date:** 2025-07-16  ";
        "**Assignee:** Technical Lead  ";
        "**Status:** To Do  ";
        "" ].
Proof. reflexivity. Qed.

(** With an unknown category the block and the checklist leave two empty
    lines in the body. *)
Example body_other_ex :
  create_issue_body blank_task
  = lines
      [ "## Task Overview";
        "**Task ID:** ";
        "**Phase:** ";
        "**Week:** ";
        "**Duration:**  days";
        "**Priority:** ";
        "";
        "";
        "## Deliverables";
        "- [ ] To be defined";
        "";
        "## Acceptance Criteria";
        "- [ ] To be defined";
        "";
        "## Dependencies";
        "List any tasks that must be completed before this one:";
        "None";
        "";
        "## Resources Needed";
        "- Access to: ___________";
        "- Credentials for: ___________";
        "- Approval from: ___________";
        "";
        "## Notes";
        "No additional notes";
        "";
        "";
        "---";
        "";
        "**Start Date:**   ";
        "**End Date:**   ";
        "**Assignee:**   ";
        "**Status:**   ";
        "" ].
Proof. reflexivity. Qed.

(** ** Facts about the string operations *)

Section StrFacts.

Lemma str_app_nil_r (s : string) : s ++ "" = s.
Proof. induction s as [|c s IH]; simpl; [reflexivity | now rewrite IH]. Qed.

Lemma str_app_assoc (a b c : string) : (a ++ b) ++ c = a ++ b ++ c.
Proof. induction a as [|x a IH]; simpl; [reflexivity | now rewrite IH]. Qed.

Lemma str_length_app (a b : string) :
  String.length (a ++ b) = String.length a + String.length b.
Proof. induction a as [|x a IH]; simpl; [reflexivity | now rewrite IH]. Qed.

Lemma str_map_app (f : ascii -> ascii) (a b : string) :
  Str.map f (a ++ b) = Str.map f a ++ Str.map f b.
Proof. induction a as [|x a IH]; simpl; [reflexivity | now rewrite IH]. Qed.

(** A mapped text splits where its image does. *)
Lemma str_map_app_inv (f : ascii -> ascii) (a b s : string) :
  Str.map f s = a ++ b ->
  exists a' b', s = a' ++ b' /\ Str.map f a' = a /\ Str.map f b' = b.
Proof.
  revert s; induction a as [|x a IH]; intros s H.
  - exists "", s. auto.
  - destruct s as [|c s]; simpl in H; [discriminate|].
    injection H as Hc Hs.
    destruct (IH _ Hs) as (a' & b' & -> & Ha & Hb).
    exists (String c a'), b'. simpl. rewrite Ha, Hc. auto.
Qed.



Lemma lower_lower_char (c : ascii) :
  Str.lower_char (Str.lower_char c) = Str.lower_char c.
Proof. destruct c as [[] [] [] [] [] [] [] []]; reflexivity. Qed.



Lemma lower_idem (s : string) : Str.lower (Str.lower s) = Str.lower s.
Proof.
  induction s as [|c s IH]; simpl; [reflexivity|].
  unfold Str.lower in *; simpl.
  now rewrite lower_lower_char, IH.
Qed.


Lemma starts_with_spec (p s : string) :
  Str.starts_with p s = true <-> exists post, s = p ++ post.
Proof.
  revert s; induction p as [|a p IH]; intros s; simpl.
  - split; [intros _; now exists s | reflexivity].
  - destruct s as [|b s].
    + split; [discriminate | intros (post & H); discriminate].
    + rewrite andb_true_iff, Ascii.eqb_eq, IH. split.
      * intros (-> & post & ->). now exists post.
      * intros (post & H). injection H as -> ->. split; [reflexivity|now exists post].
Qed.

Lemma contains_spec (needle hay : string) :
  Str.contains needle hay = true <-> Str.occurs needle hay.
Proof.
  unfold Str.occurs. induction hay as [|c hay IH].
  - simpl. rewrite orb_false_r, starts_with_spec. split.
    + intros (post & H). now exists "", post.
    + intros (pre & post & H). destruct pre; [now exists post|discriminate].
  - cbn [Str.contains]. rewrite orb_true_iff, starts_with_spec, IH. split.
    + intros [(post & H) | (pre & post & H)].
      * now exists "", post.
      * exists (String c pre), post. simpl. now rewrite H.
    + intros (pre & post & H). destruct pre as [|x pre].
      * left. now exists post.
      * right. injection H as _ H. now exists pre, post.
Qed.

(** The test [kw in s.lower()] for a lower-case keyword: [kw] occurs in
    [s] up to case. *)
Lemma contains_lower_spec (kw s : string) :
  Str.lower kw = kw ->
  (Str.contains kw (Str.lower s) = true <-> Str.occurs_caseless kw s).
Proof.
  intros Hkw. rewrite contains_spec.
  unfold Str.occurs, Str.occurs_caseless, Str.caseless_eq. split.
  - intros (pre & post & H).
    apply str_map_app_inv in H as (pre' & r & -> & Hp & Hr).
    apply str_map_app_inv in Hr as (mid & post' & -> & Hm & Hq).
    exists pre', mid, post'. split; [reflexivity|].
    rewrite Hkw. exact Hm.
  - intros (pre & mid & post & -> & Hm).
    exists (Str.lower pre), (Str.lower post).
    unfold Str.lower in *. now rewrite !str_map_app, Hm, Hkw.
Qed.


Lemma join_cons (sep x : string) (l : list string) :
  l <> [] -> Str.join sep (x :: l) = x ++ sep ++ Str.join sep l.
Proof. destruct l; [congruence | reflexivity]. Qed.

Lemma split_from_nonempty (sep : string) (s : string) :
  forall skip cur, Str.split_from sep skip cur s <> [].
Proof.
  induction s as [|c s IH]; intros skip cur; simpl; [discriminate|].
  destruct skip; [|apply IH].
  destruct (Str.starts_with sep (String c s)); [discriminate | apply IH].
Qed.

Lemma str_drop_app (a b : string) : Str.drop (String.length a) (a ++ b) = b.
Proof. induction a; simpl; auto. Qed.



(** Replacing one character by another is a character-wise map. *)
Lemma replace_char_from (a b : ascii) (s : string) :
  forall cur,
    Str.join (String b "") (Str.split_from (String a "") 0 cur s)
    = cur ++ Str.map (fun c => if Ascii.eqb c a then b else c) s.
Proof.
  induction s as [|c s IH]; intros cur; [simpl; now rewrite str_app_nil_r|].
  cbn [Str.split_from Str.starts_with Str.map].
  rewrite andb_true_r, Ascii.eqb_sym.
  destruct (Ascii.eqb c a).
  - rewrite join_cons by apply split_from_nonempty.
    cbn [String.length]. rewrite IH. reflexivity.
  - rewrite IH. now rewrite str_app_assoc.
Qed.

Lemma replace_char (a b : ascii) (s : string) :
  Str.replace (String a "") (String b "") s
  = Str.map (fun c => if Ascii.eqb c a then b else c) s.
Proof. unfold Str.replace, Str.split. now rewrite replace_char_from. Qed.





Lemma str_join_app (sep : string) (l1 l2 : list string) :
  l1 <> [] -> l2 <> [] ->
  Str.join sep (l1 ++ l2) = Str.join sep l1 ++ sep ++ Str.join sep l2.
Proof.
  intros H1 H2. induction l1 as [|x l1 IH]; [congruence|].
  destruct l1 as [|y l1].
  - simpl app. now rewrite join_cons.
  - change ((x :: y :: l1) ++ l2)%list with (x :: ((y :: l1) ++ l2))%list.
    rewrite join_cons by discriminate.
    rewrite IH by discriminate.
    rewrite (join_cons sep x (y :: l1)) by discriminate.
    now rewrite !str_app_assoc.
Qed.

Lemma occurs_join (sep x : string) (l : list string) :
  In x l -> Str.occurs x (Str.join sep l).
Proof.
  intros H. apply in_split in H as (l1 & l2 & ->).
  destruct l1 as [|a l1], l2 as [|b l2].
  - exists "", "". simpl. now rewrite str_app_nil_r.
  - exists "", (sep ++ Str.join sep (b :: l2)). simpl app.
    now rewrite (join_cons sep x (b :: l2)) by discriminate.
  - exists (Str.join sep (a :: l1) ++ sep), "".
    rewrite str_join_app by discriminate. simpl (Str.join sep [x]).
    now rewrite !str_app_assoc, str_app_nil_r.
  - exists (Str.join sep (a :: l1) ++ sep), (sep ++ Str.join sep (b :: l2)).
    rewrite str_join_app by discriminate.
    rewrite (join_cons sep x (b :: l2)) by discriminate.
    now rewrite !str_app_assoc.
Qed.

End StrFacts.

(** Appends nested to the left are moved to the right, where they stand in
    the goal as written. *)
Ltac reassociate :=
  repeat match goal with
         | |- context [(?a ++ ?b) ++ ?c] => rewrite (str_app_assoc a b c)
         end.

(** ** The label generator *)

Section Labels.

Variable task : Task.

Lemma labels_by_field :
  get_labels_for_task task
  = (status_labels task ++ phase_labels task ++ automation_labels task
     ++ role_labels task ++ ["task"])%list.
Proof.
  unfold get_labels_for_task, status_labels, phase_labels,
    automation_labels, role_labels, role_table, push.
  cbn [List.filter List.map fst snd].
  destruct (Str.truthy (status task)), (Str.truthy (phase task)),
    (Str.truthy (automation_category task)), (Str.truthy (assignee task));
    try reflexivity;
    destruct (Str.contains "technical lead" _),
      (Str.contains "ai/ml engineer" _),
      (Str.contains "frontend developer" _),
      (Str.contains "product manager" _),
      (Str.contains "devops engineer" _); reflexivity.
Qed.

Lemma status_labels_head (l : string) :
  In l (status_labels task) -> Str.first_char l = Some "s"%char.
Proof.
  unfold status_labels. destruct (Str.truthy _); simpl; [|tauto].
  intros [<- | []]. reflexivity.
Qed.

Lemma phase_labels_head (l : string) :
  In l (phase_labels task) -> Str.first_char l = Some "p"%char.
Proof.
  unfold phase_labels. destruct (Str.truthy _); simpl; [|tauto].
  intros [<- | []]. reflexivity.
Qed.

Lemma automation_labels_head (l : string) :
  In l (automation_labels task) -> Str.first_char l = Some "a"%char.
Proof.
  unfold automation_labels. destruct (Str.truthy _); simpl; [|tauto].
  intros [<- | []]. reflexivity.
Qed.

Lemma role_labels_head (l : string) :
  In l (role_labels task) -> Str.first_char l = Some "r"%char.
Proof.
  unfold role_labels. destruct (Str.truthy _); simpl; [|tauto].
  intros H. apply in_map_iff in H as (e & <- & _). reflexivity.
Qed.

(** The labels before the last one, and the first letter of each. *)
Lemma field_labels_head (l : string) :
  In l (status_labels task ++ phase_labels task ++ automation_labels task
        ++ role_labels task)%list ->
  exists c, Str.first_char l = Some c
            /\ In c ["s"; "p"; "a"; "r"]%char.
Proof.
  rewrite !in_app_iff. intros [H | [H | [H | H]]].
  - apply status_labels_head in H. eexists; split; [eassumption|simpl; tauto].
  - apply phase_labels_head in H. eexists; split; [eassumption|simpl; tauto].
  - apply automation_labels_head in H. eexists; split; [eassumption|simpl; tauto].
  - apply role_labels_head in H. eexists; split; [eassumption|simpl; tauto].
Qed.

Lemma role_labels_NoDup : NoDup (role_labels task).
Proof.
  unfold role_labels. destruct (Str.truthy _); [|constructor].
  unfold role_table. cbn [List.filter fst].
  destruct (Str.contains "technical lead" _),
    (Str.contains "ai/ml engineer" _),
    (Str.contains "frontend developer" _),
    (Str.contains "product manager" _),
    (Str.contains "devops engineer" _);
    cbn [List.map snd];
    repeat (constructor; [simpl; intuition discriminate|]);
    constructor.
Qed.

Lemma one_or_none_NoDup (b : bool) (x : string) :
  NoDup (if b then [x] else []).
Proof. destruct b; repeat constructor. simpl. tauto. Qed.

End Labels.

Lemma field_labels_not_task (task : Task) :
  ~ In "task"
      (status_labels task ++ phase_labels task ++ automation_labels task
       ++ role_labels task)%list.
Proof.
  intros H. apply field_labels_head in H as (c & Hc & Hin).
  simpl in Hc. injection Hc as <-.
  simpl in Hin. intuition discriminate.
Qed.

Lemma labels_front_last (task : Task) :
  get_labels_for_task task
  = ((status_labels task ++ phase_labels task ++ automation_labels task
      ++ role_labels task) ++ ["task"])%list.
Proof. rewrite labels_by_field. now rewrite <- !List.app_assoc. Qed.

Lemma field_labels_NoDup (task : Task) :
  NoDup (status_labels task ++ phase_labels task ++ automation_labels task
         ++ role_labels task)%list.
Proof.
  apply NoDup_app; [apply one_or_none_NoDup| |].
  - apply NoDup_app; [apply one_or_none_NoDup| |].
    + apply NoDup_app;
        [apply one_or_none_NoDup | apply role_labels_NoDup |].
      intros l Ha Hr. apply automation_labels_head in Ha.
      apply role_labels_head in Hr. congruence.
    + intros l Hp H. apply phase_labels_head in Hp.
      apply in_app_iff in H as [H | H];
        [apply automation_labels_head in H | apply role_labels_head in H];
        congruence.
  - intros l Hs H. apply status_labels_head in Hs.
    rewrite !in_app_iff in H. destruct H as [H | [H | H]];
      [apply phase_labels_head in H | apply automation_labels_head in H
       | apply role_labels_head in H]; congruence.
Qed.

(** C9. Whatever the fields of a task hold, also when all are empty, the
    label list of [get_labels_for_task] holds the literal label [task]
    exactly once. *)
Theorem task_label_exactly_once (task : Task) :
  count_occ string_dec (get_labels_for_task task) "task" = 1.
Proof.
  rewrite labels_front_last, count_occ_app.
  assert (H := field_labels_not_task task).
  apply (count_occ_not_In string_dec) in H. rewrite H. reflexivity.
Qed.

(** C10. The label list of [get_labels_for_task] has no duplicate entry,
    and its last element is the literal label [task]. *)
Theorem labels_distinct_task_last (task : Task) :
  NoDup (get_labels_for_task task)
  /\ last (get_labels_for_task task) "" = "task".
Proof.
  rewrite labels_front_last. split.
  - apply NoDup_app.
    + apply field_labels_NoDup.
    + repeat constructor. simpl. tauto.
    + intros l Hl [<- | []]. now apply (field_labels_not_task task).
  - apply last_last.
Qed.

(** ** Status label *)

Lemma other_head_not_status (l : string) (c : ascii) :
  Str.first_char l = Some c -> c <> "s"%char ->
  Str.starts_with "status:" l = false.
Proof.
  destruct l as [|x l]; cbn [Str.first_char Str.starts_with]; [discriminate|].
  intros [= ->] H. apply Ascii.eqb_neq in H.
  now rewrite Ascii.eqb_sym, H.
Qed.

Lemma filter_status_none (ls : list string) (c : ascii) :
  c <> "s"%char ->
  (forall l, In l ls -> Str.first_char l = Some c) ->
  filter (Str.starts_with "status:") ls = [].
Proof.
  intros Hc H. induction ls as [|x ls IH]; [reflexivity|].
  cbn [filter].
  rewrite (other_head_not_status x c); [|apply H; now left|exact Hc].
  apply IH. intros l Hl. apply H. now right.
Qed.

Lemma filter_status_labels (task : Task) :
  filter (Str.starts_with "status:") (get_labels_for_task task)
  = status_labels task.
Proof.
  rewrite labels_by_field, !filter_app.
  rewrite (filter_status_none (phase_labels task) "p")
    by (discriminate || apply phase_labels_head).
  rewrite (filter_status_none (automation_labels task) "a")
    by (discriminate || apply automation_labels_head).
  rewrite (filter_status_none (role_labels task) "r")
    by (discriminate || apply role_labels_head).
  simpl. rewrite List.app_nil_r.
  unfold status_labels. destruct (Str.truthy _); reflexivity.
Qed.

Lemma status_labels_hyphenate (task : Task) :
  status task <> "" ->
  status_labels task = ["status:" ++ hyphenate (Str.lower (status task))].
Proof.
  intros H. unfold status_labels.
  destruct (status task) as [|c s] eqn:E; [congruence|].
  cbn [Str.truthy]. now rewrite (replace_char " " "-").
Qed.

(** C7. For a task whose status is not empty, the label list holds the
    label [status:] followed by the status in lower case with every space
    replaced by a hyphen, and that is its only status label; for an empty
    status there is no status label; the status [In Progress] gives exactly
    [status:in-progress]. *)
Theorem status_label_of_task (task : Task) :
  (status task <> "" ->
   In ("status:" ++ hyphenate (Str.lower (status task)))
      (get_labels_for_task task)
   /\ filter (Str.starts_with "status:") (get_labels_for_task task)
      = ["status:" ++ hyphenate (Str.lower (status task))])
  /\ (status task = "" ->
      filter (Str.starts_with "status:") (get_labels_for_task task) = [])
  /\ (status task = "In Progress" ->
      filter (Str.starts_with "status:") (get_labels_for_task task)
      = ["status:in-progress"]).
Proof.
  rewrite filter_status_labels. repeat split.
  - rewrite labels_by_field, status_labels_hyphenate by assumption.
    now left.
  - now apply status_labels_hyphenate.
  - intros H. unfold status_labels. now rewrite H.
  - intros H. unfold status_labels. now rewrite H.
Qed.

Lemma status_label_of_task_witness :
  filter (Str.starts_with "status:")
    (get_labels_for_task (sample_task "T1" "" "In Progress" "" "Human"))
  = ["status:in-progress"]
  /\ In "status:to-do"
       (get_labels_for_task (sample_task "T1" "" "To Do" "" "Human"))
  /\ filter (Str.starts_with "status:") (get_labels_for_task blank_task) = [].
Proof.
  split; [|split].
  - apply (status_label_of_task (sample_task "T1" "" "In Progress" "" "Human")).
    reflexivity.
  - apply (status_label_of_task (sample_task "T1" "" "To Do" "" "Human")).
    simpl. discriminate.
  - apply (status_label_of_task blank_task). reflexivity.
Defined.

(** ** Role labels *)

Lemma role_table_lower (kw slug : string) :
  In (kw, slug) role_table -> Str.lower kw = kw.
Proof.
  simpl. intros [H | [H | [H | [H | [H | []]]]]];
    injection H as <- _; reflexivity.
Qed.

Lemma role_table_slug (e : string * string) (kw slug : string) :
  In e role_table -> In (kw, slug) role_table -> snd e = slug -> e = (kw, slug).
Proof.
  simpl. intros [<- | [<- | [<- | [<- | [<- | []]]]]];
    intros [H | [H | [H | [H | [H | []]]]]];
    injection H as <- <-; simpl; intros E;
    first [reflexivity | discriminate E].
Qed.

Lemma role_labels_spec (task : Task) (kw slug : string) :
  assignee task <> "" ->
  In (kw, slug) role_table ->
  (In ("role:" ++ slug) (role_labels task)
   <-> Str.contains kw (Str.lower (assignee task)) = true).
Proof.
  intros Ha Hin. unfold role_labels.
  destruct (assignee task) as [|c a] eqn:E; [congruence|].
  cbn [Str.truthy]. rewrite in_map_iff. split.
  - intros (e & He & Hf). apply filter_In in Hf as (He' & Hc).
    injection He as He.
    rewrite (role_table_slug e kw slug He' Hin He) in Hc. exact Hc.
  - intros Hc. exists (kw, slug). split; [reflexivity|].
    apply filter_In. split; assumption.
Qed.

Lemma role_label_only_from_roles (task : Task) (slug : string) :
  In ("role:" ++ slug) (get_labels_for_task task)
  <-> In ("role:" ++ slug) (role_labels task).
Proof.
  rewrite labels_by_field, !in_app_iff. split; [|tauto].
  intros [H | [H | [H | [H | H]]]]; [| | | exact H |].
  - apply status_labels_head in H. discriminate H.
  - apply phase_labels_head in H. discriminate H.
  - apply automation_labels_head in H. discriminate H.
  - destruct H as [H | []]. discriminate H.
Qed.

(** C6. For a task whose assignee is not empty, the label list holds
    [role:<slug>] for exactly those keywords of the fixed list (technical
    lead, ai/ml engineer, frontend developer, product manager, devops
    engineer) that occur in the assignee text up to the case of the letters;
    all that occur give their label, so an assignee naming both Technical
    Lead and Product Manager, in any case, gets [role:technical-lead] and
    [role:product-manager]. *)
Theorem role_labels_of_assignee (task : Task) :
  assignee task <> "" ->
  (forall kw slug,
      In (kw, slug) role_table ->
      (In ("role:" ++ slug) (get_labels_for_task task)
       <-> Str.occurs_caseless kw (assignee task)))
  /\ (Str.occurs_caseless "Technical Lead" (assignee task) ->
      Str.occurs_caseless "Product Manager" (assignee task) ->
      In "role:technical-lead" (get_labels_for_task task)
      /\ In "role:product-manager" (get_labels_for_task task)).
Proof.
  intros Ha.
  assert (Hall : forall kw slug,
             In (kw, slug) role_table ->
             (In ("role:" ++ slug) (get_labels_for_task task)
              <-> Str.occurs_caseless kw (assignee task))).
  { intros kw slug Hin.
    rewrite role_label_only_from_roles, (role_labels_spec task kw slug Ha Hin).
    apply contains_lower_spec. exact (role_table_lower kw slug Hin). }
  split; [exact Hall|].
  intros H1 H2. split.
  - apply (Hall "technical lead" "technical-lead"); [simpl; tauto | exact H1].
  - apply (Hall "product manager" "product-manager"); [simpl; tauto | exact H2].
Qed.

Lemma role_labels_of_assignee_witness :
  In "role:technical-lead"
     (get_labels_for_task
        (sample_task "T1" "TECHNICAL LEAD, product Manager" "" "" ""))
  /\ In "role:product-manager"
       (get_labels_for_task
          (sample_task "T1" "TECHNICAL LEAD, product Manager" "" "" "")).
Proof.
  apply (role_labels_of_assignee
           (sample_task "T1" "TECHNICAL LEAD, product Manager" "" "" "")).
  - simpl. discriminate.
  - exists "", "TECHNICAL LEAD", ", product Manager". split; reflexivity.
  - exists "TECHNICAL LEAD, ", "product Manager", "". split; reflexivity.
Defined.

(** ** Issue body *)

(** The body is the overview, the category block, the data sections, the
    Definition of Done and the footer, each on lines of their own. *)
Lemma body_layout (task : Task) :
  create_issue_body task
  = lines (body_overview task) ++ nl
    ++ automation_section task ++ nl
    ++ lines (body_sections task) ++ nl
    ++ definition_of_done task ++ nl
    ++ lines (body_footer task).
Proof.
  unfold create_issue_body, lines.
  rewrite str_join_app by (unfold body_overview; discriminate).
  rewrite str_join_app by discriminate.
  rewrite str_join_app by (unfold body_sections; discriminate).
  rewrite str_join_app by (unfold body_footer; discriminate).
  reflexivity.
Qed.





(** ** Checklists of the body *)







(** ** Runs of the orchestrator *)

Section Runs.

Variable tr : tracker.

Lemma push_push {A : Type} (l : list A) (x y : A) :
  push (push l x) y = (l ++ [x; y])%list.
Proof. unfold push. now rewrite <- List.app_assoc. Qed.

(** One call of [create_issue]: one request, the payload of the task,
    and the lines and result that the answer calls for. *)
Lemma create_issue_run (task : Task) (w : world) :
  let sent' := (sent w ++ [issue_request task])%list in
  create_issue tr task w
  = (Ok (issue_created (tr sent')),
     mkWorld sent' (console w ++ issue_lines task (tr sent'))).
Proof.
  unfold create_issue, bind, post, print, ret, push,
    issue_created, issue_lines.
  cbn [sent console].
  destruct (tr (sent w ++ [issue_request task])%list) as [|r];
    [reflexivity|].
  destruct (status_code r =? 201)%Z.
  - destruct (json r) as [|[n|]]; reflexivity.
  - cbn [sent console]. now rewrite <- List.app_assoc.
Qed.

Lemma create_label_run (label : string * string * string) (w : world) :
  let sent' := (sent w ++ [label_request label])%list in
  create_label tr label w
  = (Ok tt,
     mkWorld sent'
       (console w ++ [label_line (fst (fst label)) (tr sent')])).
Proof.
  unfold create_label, bind, post, print, push, label_line.
  cbn [sent console].
  destruct (tr (sent w ++ [label_request label])%list) as [|r];
    [reflexivity|].
  destruct (status_code r =? 201)%Z; [reflexivity|].
  destruct (status_code r =? 422)%Z; reflexivity.
Qed.

Lemma create_milestone_run (name description : string)
  (due_date : option string) (w : world) :
  let sent' :=
    (sent w ++ [milestone_data name description due_date])%list in
  exists result,
    create_milestone tr name description due_date w
    = (Ok result,
       mkWorld sent' (console w ++ [milestone_line name (tr sent')])).
Proof.
  unfold create_milestone, bind, post, print, ret, push, milestone_line.
  cbn [sent console].
  destruct (tr (sent w ++ [milestone_data name description due_date])%list)
    as [|r]; [now eexists|].
  destruct (status_code r =? 201)%Z.
  - destruct (json r); now eexists.
  - destruct (status_code r =? 422)%Z; now eexists.
Qed.

(** A loop whose body sends one request and returns sends them all, in
    order, and returns. *)
Lemma for_each_run {A : Type} (req : A -> request) (body : A -> M unit)
  (xs : list A) :
  (forall x w, exists new,
      body x w = (Ok tt, mkWorld (sent w ++ [req x]) (console w ++ new))) ->
  forall w, exists new,
    for_each xs body w
    = (Ok tt, mkWorld (sent w ++ List.map req xs) (console w ++ new)).
Proof.
  intros Hbody. induction xs as [|x xs IH]; intros w.
  - exists []. simpl. unfold ret. rewrite !List.app_nil_r.
    now destruct w.
  - destruct (Hbody x w) as (new1 & E1).
    destruct (IH (mkWorld (sent w ++ [req x]) (console w ++ new1)))
      as (new2 & E2).
    exists (new1 ++ new2)%list.
    cbn [for_each]. unfold bind at 1. rewrite E1, E2. cbn [sent console].
    now rewrite <- !List.app_assoc.
Qed.

Lemma create_labels_run (w : world) :
  exists new,
    create_labels tr w
    = (Ok tt,
       mkWorld (sent w ++ List.map label_request labels_to_create)
         (console w ++ new)).
Proof.
  unfold create_labels.
  destruct (for_each_run label_request (create_label tr) labels_to_create)
    with (w := mkWorld (sent w) (console w ++ [CreatingLabels]))
    as (new & E).
  { intros x w0. eexists. apply create_label_run. }
  exists ([CreatingLabels] ++ new ++ [LabelsCompleted])%list.
  unfold bind at 1. unfold print at 1. unfold push.
  unfold bind at 1. rewrite E.
  unfold print, push. cbn [sent console].
  now rewrite <- !List.app_assoc.
Qed.

Lemma create_milestones_run (w : world) :
  exists new,
    create_milestones tr w
    = (Ok tt,
       mkWorld
         (sent w
          ++ List.map
               (fun m =>
                  milestone_data (fst (fst m)) (snd (fst m)) (Some (snd m)))
               milestones)
         (console w ++ new)).
Proof.
  unfold create_milestones.
  destruct (for_each_run
              (fun m =>
                 milestone_data (fst (fst m)) (snd (fst m)) (Some (snd m)))
              (fun milestone =>
                 create_milestone tr (fst (fst milestone))
                   (snd (fst milestone)) (Some (snd milestone)) ;;
                 ret tt)
              milestones)
    with (w := mkWorld (sent w) (console w ++ [CreatingMilestones]))
    as (new & E).
  { intros x w0.
    destruct (create_milestone_run (fst (fst x)) (snd (fst x))
                (Some (snd x)) w0) as (result & E).
    eexists. unfold bind. rewrite E. reflexivity. }
  exists ([CreatingMilestones] ++ new ++ [MilestonesCompleted])%list.
  unfold bind at 1. unfold print at 1. unfold push.
  unfold bind at 1. rewrite E.
  unfold print, push. cbn [sent console].
  now rewrite <- !List.app_assoc.
Qed.

End Runs.

Section Batch.

Variable tr : tracker.

Lemma created_lines_count (task : Task) (o : outcome) :
  List.length (filter is_created_line (issue_lines task o))
  = match issue_created o with Some _ => 1 | None => 0 end.
Proof.
  unfold issue_lines, issue_created. destruct o as [|r]; [reflexivity|].
  destruct (status_code r =? 201)%Z; [|reflexivity].
  destruct (json r) as [|[n|]]; reflexivity.
Qed.

(** The issue loop sends the payload of every task, in order, whatever
    the tracker answers, and counts each task once. *)
Lemma issue_loop_run (tasks : list Task) :
  forall success_count failed_count w,
  exists s f new,
    issue_loop tr tasks success_count failed_count w
    = (Ok (s, f),
       mkWorld (sent w ++ List.map issue_request tasks) (console w ++ new))
    /\ s + f = success_count + failed_count + List.length tasks
    /\ s = success_count + List.length (filter is_created_line new).
Proof.
  induction tasks as [|task tasks IH]; intros s0 f0 w.
  - exists s0, f0, []. cbn [issue_loop List.map]. unfold ret.
    rewrite !List.app_nil_r. destruct w. simpl. repeat split; lia.
  - cbn [issue_loop]. unfold bind. rewrite create_issue_run.
    remember (tr (sent w ++ [issue_request task])%list) as o eqn:Eo.
    assert (Hc := created_lines_count task o).
    destruct (issue_created o) as [n|].
    + destruct (IH (s0 + 1) f0
                  (mkWorld (sent w ++ [issue_request task])
                     (console w ++ issue_lines task o)))
        as (s & f & new & E & Hsum & Hs).
      exists s, f, (issue_lines task o ++ new)%list.
      rewrite E. cbn [sent console].
      rewrite <- !List.app_assoc, filter_app, length_app, Hc.
      cbn [List.map List.length app]. repeat split; lia.
    + destruct (IH s0 (f0 + 1)
                  (mkWorld (sent w ++ [issue_request task])
                     (console w ++ issue_lines task o)))
        as (s & f & new & E & Hsum & Hs).
      exists s, f, (issue_lines task o ++ new)%list.
      rewrite E. cbn [sent console].
      rewrite <- !List.app_assoc, filter_app, length_app, Hc.
      cbn [List.map List.length app]. repeat split; lia.
Qed.



End Batch.

(** The reader on the two-row table. *)
Lemma sample_read (w0 : world) :
  read_tasks_from_csv sample_files "tasks_redesigned.csv" w0
  = (Ok two_tasks, w0).
Proof. reflexivity. Qed.

(** The end-to-end scenario of the specification: two rows, a tracker that
    creates every issue. *)
Example two_rows_all_created :
  let w := snd (process_all_tasks always_created sample_files
                  "tasks_redesigned.csv" start) in
  List.map (fun r => match r with
                     | PostIssue title _ _ => title
                     | _ => ""
                     end)
    (filter is_issue (sent w))
  = [ "T1: [HUMAN] Set up the repository";
      "T2: [MANUS] Set up the repository" ]
  /\ skipn (List.length (console w) - 4) (console w)
     = [SummaryHeader; SummaryCreated 2; SummaryFailed 0; SummaryTotal 2].
Proof. vm_compute. split; reflexivity. Qed.

(** The same rows against a tracker that refuses every second issue: the
    second task is still submitted. *)
Example two_rows_one_refused :
  let w := snd (process_all_tasks conflicts_and_refusals sample_files
                  "tasks_redesigned.csv" start) in
  List.length (filter is_issue (sent w)) = 2
  /\ skipn (List.length (console w) - 4) (console w)
     = [SummaryHeader; SummaryCreated 1; SummaryFailed 1; SummaryTotal 2].
Proof. vm_compute. split; reflexivity. Qed.

(** ** The reader *)

Lemma row_get_some (t : table) (row : string -> string) (key v : string) :
  row_get t row key = Some v -> In key (fieldnames t).
Proof.
  unfold row_get. destruct (existsb _ _) eqn:E; [|discriminate].
  intros _. apply existsb_exists in E as (k & Hin & Hk).
  apply String.eqb_eq in Hk. now subst.
Qed.

(** A row gives a task only when the header has every column looked up. *)
Lemma task_of_row_some (t : table) (row : string -> string) (task : Task) :
  task_of_row t row = Some task ->
  forall column, In column required_columns -> In column (fieldnames t).
Proof.
  unfold task_of_row. intros H.
  repeat match type of H with
         | match row_get t row ?k with _ => _ end = _ =>
             let E := fresh "E" in
             destruct (row_get t row k) eqn:E;
             [apply row_get_some in E | discriminate H]
         end.
  intros column Hin. simpl in Hin.
  repeat (destruct Hin as [<- | Hin]; [assumption|]).
  destruct Hin.
Qed.

Lemma read_rows_missing_column (t : table) (column : string)
  (rs : list (string -> string)) (tasks : list Task) :
  In column required_columns -> ~ In column (fieldnames t) ->
  rs <> [] -> read_rows t rs tasks = None.
Proof.
  intros Hreq Hmiss Hrs. destruct rs as [|row rs]; [congruence|].
  cbn [read_rows]. destruct (task_of_row t row) as [task|] eqn:E;
    [|reflexivity].
  exfalso. apply Hmiss. exact (task_of_row_some t row task E column Hreq).
Qed.

(** C3. When the path of the input file does not exist, the run ends with
    exit status 1 after the not-found message; when a column that the reader
    looks up is absent from the header and the file has at least one data
    row, it ends with exit status 1 after the read-error message; in both
    cases no request has been sent to the tracker. *)
Theorem reader_failures_are_fatal (tr : tracker) (fs : file_system)
  (csv_file : string) (w : world) :
  (fs csv_file = NoSuchFile ->
   process_all_tasks tr fs csv_file w
   = (Exit 1,
      mkWorld (sent w)
        (console w ++ [ReadingTasks csv_file; CsvNotFound csv_file])))
  /\ (forall t column,
        fs csv_file = Csv t ->
        In column required_columns ->
        ~ In column (fieldnames t) ->
        rows t <> [] ->
        process_all_tasks tr fs csv_file w
        = (Exit 1,
           mkWorld (sent w)
             (console w ++ [ReadingTasks csv_file; CsvReadError]))).
Proof.
  split.
  - intros H. unfold process_all_tasks, read_tasks_from_csv. rewrite H.
    unfold bind, print, sys_exit. cbn [sent console].
    now rewrite push_push.
  - intros t column H Hreq Hmiss Hrows.
    unfold process_all_tasks, read_tasks_from_csv. rewrite H.
    rewrite (read_rows_missing_column t column (rows t) [] Hreq Hmiss Hrows).
    unfold bind, print, sys_exit. cbn [sent console].
    now rewrite push_push.
Qed.

Lemma reader_failures_are_fatal_witness :
  process_all_tasks always_created sample_files "nowhere.csv" start
  = (Exit 1,
     mkWorld [] [ReadingTasks "nowhere.csv"; CsvNotFound "nowhere.csv"])
  /\ process_all_tasks always_created sample_files "no_notes.csv" start
     = (Exit 1, mkWorld [] [ReadingTasks "no_notes.csv"; CsvReadError]).
Proof.
  split.
  - apply (proj1 (reader_failures_are_fatal always_created sample_files
                    "nowhere.csv" start)).
    reflexivity.
  - apply (proj2 (reader_failures_are_fatal always_created sample_files
                    "no_notes.csv" start)
             two_rows_no_notes "Notes").
    + reflexivity.
    + simpl. tauto.
    + simpl. intuition discriminate.
    + simpl. discriminate.
Defined.

(** A file whose header lacks a column and that has no data row is read as
    an empty list of tasks: the run goes on and sends the whole bootstrap to
    the tracker. *)
Lemma header_only_file_is_accepted :
  In "Notes" required_columns
  /\ ~ In "Notes" (fieldnames header_without_notes)
  /\ sample_files "header_only.csv" = Csv header_without_notes
  /\ read_tasks_from_csv sample_files "header_only.csv" start
     = (Ok [], start)
  /\ fst (process_all_tasks always_created sample_files "header_only.csv"
            start) = Ok tt
  /\ sent (snd (process_all_tasks always_created sample_files
                  "header_only.csv" start))
     = bootstrap_requests.
Proof.
  split; [simpl; tauto|].
  split; [simpl; intuition discriminate|].
  repeat split; reflexivity.
Qed.

(** ** The issue loop over the rows of the input *)

Lemma row_get_present (t : table) (row : string -> string) (key : string) :
  In key (fieldnames t) -> row_get t row key = Some (row key).
Proof.
  intros H. unfold row_get.
  replace (existsb (String.eqb key) (fieldnames t)) with true; [reflexivity|].
  symmetry. apply existsb_exists. exists key. split; [exact H|].
  apply String.eqb_refl.
Qed.

Lemma task_of_row_complete (t : table) (row : string -> string) :
  (forall column, In column required_columns -> In column (fieldnames t)) ->
  task_of_row t row = Some (row_task row).
Proof.
  intros H. unfold task_of_row.
  rewrite !row_get_present by (apply H; simpl; tauto).
  reflexivity.
Qed.

(** With a complete header the reader gives the tasks of the rows, first
    row first. *)
Lemma read_rows_complete (t : table) (rs : list (string -> string)) :
  (forall column, In column required_columns -> In column (fieldnames t)) ->
  forall tasks,
    read_rows t rs tasks = Some (tasks ++ List.map row_task rs)%list.
Proof.
  intros H. induction rs as [|row rs IH]; intros tasks.
  - simpl. now rewrite List.app_nil_r.
  - cbn [read_rows]. rewrite task_of_row_complete by exact H.
    rewrite IH. unfold push. now rewrite <- List.app_assoc.
Qed.

(** Every task is the task of a row, so every sequence of tasks is the
    content of a table. *)
Lemma row_task_of_task (task : Task) : row_task (row_of_task task) = task.
Proof. destruct task. reflexivity. Qed.



(** ** Label and milestone bootstrap *)

(** C5. In the label and milestone bootstrap, an answer with status 422
    (the label or milestone already exists) is reported on the already-exists
    line, which is not a failure line, and any other answer that is not a
    creation, or no answer at all, is reported on a failure line; whatever
    the answers, each item returns, the bootstrap sends every item of both
    catalogs, and the issue loop after it sends every task. *)
Theorem bootstrap_tolerates_conflicts (tr : tracker) (w : world) :
  (forall label,
      let name := fst (fst label) in
      let o := tr (sent w ++ [label_request label])%list in
      create_label tr label w
      = (Ok tt,
         mkWorld (sent w ++ [label_request label])
           (console w ++ [label_line name o]))
      /\ (forall r, o = Returns r -> status_code r = 422%Z ->
                    label_line name o = LabelExists name
                    /\ is_failure_line (label_line name o) = false)
      /\ (forall r, o = Returns r ->
                    status_code r <> 201%Z -> status_code r <> 422%Z ->
                    label_line name o = LabelFailed name (status_code r))
      /\ (o = Raises -> label_line name o = LabelError name))
  /\ (forall name description due_date,
        let o :=
          tr (sent w ++ [milestone_data name description due_date])%list in
        (exists result,
            create_milestone tr name description due_date w
            = (Ok result,
               mkWorld (sent w ++ [milestone_data name description due_date])
                 (console w ++ [milestone_line name o])))
        /\ (forall r, o = Returns r -> status_code r = 422%Z ->
                      milestone_line name o = MilestoneExists name
                      /\ is_failure_line (milestone_line name o) = false)
        /\ (forall r, o = Returns r ->
                      status_code r <> 201%Z -> status_code r <> 422%Z ->
                      milestone_line name o
                      = MilestoneFailed name (status_code r))
        /\ (o = Raises -> milestone_line name o = MilestoneError name))
  /\ (forall tasks,
        exists counts new,
          (create_labels tr ;; create_milestones tr ;;
           issue_loop tr tasks 0 0) w
          = (Ok counts,
             mkWorld
               (sent w ++ bootstrap_requests
                ++ List.map issue_request tasks)
               (console w ++ new))).
Proof.
  split; [|split].
  - intros label name o. split; [apply create_label_run|].
    unfold label_line. split; [|split].
    + intros r -> H. rewrite H. now split.
    + intros r -> H1 H2.
      apply Z.eqb_neq in H1, H2. now rewrite H1, H2.
    + now intros ->.
  - intros name description due_date o.
    split; [apply create_milestone_run|].
    unfold milestone_line. split; [|split].
    + intros r -> H. rewrite H. now split.
    + intros r -> H1 H2.
      apply Z.eqb_neq in H1, H2. now rewrite H1, H2.
    + now intros ->.
  - intros tasks.
    destruct (create_labels_run tr w) as (new1 & E1).
    unfold bind at 1. rewrite E1. unfold bind at 1.
    match goal with
    | |- context [create_milestones tr ?w0] =>
        destruct (create_milestones_run tr w0) as (new2 & E2)
    end.
    rewrite E2.
    match goal with
    | |- context [issue_loop tr tasks 0 0 ?w0] =>
        destruct (issue_loop_run tr tasks 0 0 w0) as (s & f & new3 & E3 & _)
    end.
    exists (s, f), (new1 ++ new2 ++ new3)%list.
    rewrite E3. cbn [sent console]. f_equal. f_equal.
    + unfold bootstrap_requests. now rewrite <- !List.app_assoc.
    + now rewrite <- !List.app_assoc.
Qed.

Lemma bootstrap_tolerates_conflicts_witness :
  create_label conflicts_and_refusals
    ("priority:high", "d73a4a", "High priority task") start
  = (Ok tt,
     mkWorld [PostLabel "priority:high" "d73a4a" "High priority task"]
       [LabelExists "priority:high"])
  /\ label_line "task" (forbidden [label_request ("task", "7057ff", "General task")])
     = LabelFailed "task" 403
  /\ label_line "task" (unreachable [label_request ("task", "7057ff", "General task")])
     = LabelError "task"
  /\ milestone_line "Phase 1"
       (conflicts_and_refusals [milestone_data "Phase 1" "" None])
     = MilestoneExists "Phase 1"
  /\ milestone_line "Phase 1" (forbidden [milestone_data "Phase 1" "" None])
     = MilestoneFailed "Phase 1" 403
  /\ milestone_line "Phase 1" (unreachable [milestone_data "Phase 1" "" None])
     = MilestoneError "Phase 1".
Proof.
  pose proof (proj1 (bootstrap_tolerates_conflicts conflicts_and_refusals
                       start)
                ("priority:high", "d73a4a", "High priority task")) as Hc.
  pose proof (proj1 (bootstrap_tolerates_conflicts forbidden start)
                ("task", "7057ff", "General task")) as Hf.
  pose proof (proj1 (bootstrap_tolerates_conflicts unreachable start)
                ("task", "7057ff", "General task")) as Hu.
  pose proof (proj1 (proj2 (bootstrap_tolerates_conflicts
                              conflicts_and_refusals start))
                "Phase 1" "" None) as Mc.
  pose proof (proj1 (proj2 (bootstrap_tolerates_conflicts forbidden start))
                "Phase 1" "" None) as Mf.
  pose proof (proj1 (proj2 (bootstrap_tolerates_conflicts unreachable start))
                "Phase 1" "" None) as Mu.
  cbv zeta in Hc, Hf, Hu, Mc, Mf, Mu.
  destruct Hc as (Hc1 & Hc2 & _), Hf as (_ & _ & Hf3 & _),
    Hu as (_ & _ & _ & Hu4), Mc as (_ & Mc2 & _),
    Mf as (_ & _ & Mf3 & _), Mu as (_ & _ & _ & Mu4).
  split; [exact Hc1|].
  split; [apply (Hf3 (mkResponse 403 NoJson "Forbidden"));
          [reflexivity | discriminate | discriminate]|].
  split; [apply Hu4; reflexivity|].
  split; [apply (Mc2 (mkResponse 422 NoJson "Validation Failed"));
          reflexivity|].
  split; [apply (Mf3 (mkResponse 403 NoJson "Forbidden"));
          [reflexivity | discriminate | discriminate]|].
  apply Mu4. reflexivity.
Defined.

(** ** Issue title *)




Example issue_title_ex :
  issue_title (sample_task "T7" "" "" "" "Split")
  = "T7: [SPLIT] Set up the repository".
Proof. reflexivity. Qed.

(** * Further properties of the code *)

(** ** The reader, further *)

(** X1. When the header of the input table has every column the reader
    looks up, [read_tasks_from_csv] returns one task per data row, in the
    order of the rows, each field holding the cell of its column; it prints
    nothing and sends nothing. *)
Theorem reader_returns_rows_in_order (fs : file_system) (csv_file : string)
  (t : table) (w : world) :
  fs csv_file = Csv t ->
  (forall column, In column required_columns -> In column (fieldnames t)) ->
  read_tasks_from_csv fs csv_file w = (Ok (List.map row_task (rows t)), w)
  /\ List.length (List.map row_task (rows t)) = List.length (rows t).
Proof.
  intros Hfile Hheader. split; [|apply length_map].
  unfold read_tasks_from_csv. rewrite Hfile.
  now rewrite (read_rows_complete t (rows t) Hheader []).
Qed.

Lemma reader_returns_rows_in_order_witness :
  read_tasks_from_csv sample_files "tasks_redesigned.csv" start
  = (Ok two_tasks, start)
  /\ List.length two_tasks = 2.
Proof.
  apply (reader_returns_rows_in_order sample_files "tasks_redesigned.csv"
           two_rows start).
  - reflexivity.
  - intros column H. exact H.
Defined.

Lemma missing_column_dec (t : table) :
  {forall column, In column required_columns -> In column (fieldnames t)}
  + {exists column,
        In column required_columns /\ ~ In column (fieldnames t)}.
Proof.
  destruct (Forall_Exists_dec (fun c => In c (fieldnames t))
              (fun c => in_dec string_dec c (fieldnames t))
              required_columns) as [H | H].
  - left. now apply Forall_forall.
  - right. apply Exists_exists in H as (c & Hc & Hn). now exists c.
Qed.

(** X2. For an input table, the reader fails exactly when the table has a
    data row and its header lacks a column that the reader looks up; it then
    leaves with exit status 1, and otherwise it returns the tasks of the
    rows and changes nothing. *)
Theorem reader_fails_iff_missing_column (fs : file_system)
  (csv_file : string) (t : table) (w : world) :
  fs csv_file = Csv t ->
  let missing :=
    rows t <> []
    /\ exists column,
         In column required_columns /\ ~ In column (fieldnames t) in
  (fst (read_tasks_from_csv fs csv_file w) = Exit 1 <-> missing)
  /\ (~ missing ->
      read_tasks_from_csv fs csv_file w
      = (Ok (List.map row_task (rows t)), w)).
Proof.
  intros Hfile missing. subst missing.
  unfold read_tasks_from_csv. rewrite Hfile.
  destruct (missing_column_dec t) as [Hall | (c & Hc & Hmiss)].
  - rewrite (read_rows_complete t (rows t) Hall []). cbn [fst ret app].
    split; [|reflexivity].
    split; [discriminate|].
    intros (_ & c & Hc & Hmiss). exfalso. apply Hmiss, Hall, Hc.
  - destruct (rows t) as [|row rs] eqn:Erows.
    + cbn [read_rows fst ret List.map]. split; [|reflexivity].
      split; [discriminate|]. intros (H & _). congruence.
    + rewrite (read_rows_missing_column t c (row :: rs) [] Hc Hmiss)
        by discriminate.
      unfold bind, print, sys_exit. cbn [fst]. split.
      * split; [|reflexivity]. intros _. split; [discriminate|].
        now exists c.
      * intros H. exfalso. apply H. split; [discriminate|]. now exists c.
Qed.

Lemma reader_fails_iff_missing_column_witness :
  fst (read_tasks_from_csv sample_files "no_notes.csv" start) = Exit 1
  /\ read_tasks_from_csv sample_files "header_only.csv" start
     = (Ok [], start).
Proof.
  split.
  - apply (proj1 (reader_fails_iff_missing_column sample_files
                    "no_notes.csv" two_rows_no_notes start eq_refl)).
    split; [simpl; discriminate|].
    exists "Notes". split; [simpl; tauto | simpl; intuition discriminate].
  - apply (proj2 (reader_fails_iff_missing_column sample_files
                    "header_only.csv" header_without_notes start eq_refl)).
    intros (H & _). now apply H.
Defined.

(** X3. Whatever the file system holds at the path, [read_tasks_from_csv]
    sends nothing to the tracker; when it returns it has printed nothing,
    and when it leaves it is with exit status 1 after one line, the
    not-found or the read-error message. *)
Theorem reader_leaves_tracker_alone (fs : file_system) (csv_file : string)
  (w : world) :
  sent (snd (read_tasks_from_csv fs csv_file w)) = sent w
  /\ match fst (read_tasks_from_csv fs csv_file w) with
     | Ok _ => snd (read_tasks_from_csv fs csv_file w) = w
     | Exit code =>
         code = 1%Z
         /\ exists l,
             console (snd (read_tasks_from_csv fs csv_file w))
             = (console w ++ [l])%list
             /\ (l = CsvNotFound csv_file \/ l = CsvReadError)
     end.
Proof.
  unfold read_tasks_from_csv.
  destruct (fs csv_file) as [| |t].
  - unfold bind, print, sys_exit, push. cbn. split; [reflexivity|].
    split; [reflexivity|]. eexists. split; [reflexivity|now left].
  - unfold bind, print, sys_exit, push. cbn. split; [reflexivity|].
    split; [reflexivity|]. eexists. split; [reflexivity|now right].
  - destruct (read_rows t (rows t) []).
    + cbn. split; reflexivity.
    + unfold bind, print, sys_exit, push. cbn. split; [reflexivity|].
      split; [reflexivity|]. eexists. split; [reflexivity|now right].
Qed.

(** X4. When the input file exists but cannot be opened or decoded, the
    run ends with exit status 1 after the read-error message, as for a
    missing column, and no request has been sent to the tracker. *)
Theorem unreadable_file_is_fatal (tr : tracker) (fs : file_system)
  (csv_file : string) (w : world) :
  fs csv_file = Unreadable ->
  process_all_tasks tr fs csv_file w
  = (Exit 1,
     mkWorld (sent w) (console w ++ [ReadingTasks csv_file; CsvReadError])).
Proof.
  intros H. unfold process_all_tasks, read_tasks_from_csv. rewrite H.
  unfold bind, print, sys_exit. cbn [sent console].
  now rewrite push_push.
Qed.

Lemma unreadable_file_is_fatal_witness :
  process_all_tasks always_created sample_files "locked.csv" start
  = (Exit 1, mkWorld [] [ReadingTasks "locked.csv"; CsvReadError]).
Proof.
  apply (unreadable_file_is_fatal always_created sample_files "locked.csv"
           start).
  reflexivity.
Defined.

(** ** The label generator, further *)

Lemma starts_with_app (p s : string) : Str.starts_with p (p ++ s) = true.
Proof. apply starts_with_spec. now exists s. Qed.

Lemma other_head_no_prefix (a c : ascii) (p l : string) :
  Str.first_char l = Some c -> c <> a ->
  Str.starts_with (String a p) l = false.
Proof.
  destruct l as [|x l]; cbn [Str.first_char Str.starts_with]; [discriminate|].
  intros [= ->] H. apply Ascii.eqb_neq in H.
  now rewrite Ascii.eqb_sym, H.
Qed.

Lemma filter_prefix_none (a c : ascii) (p : string) (ls : list string) :
  c <> a ->
  (forall l, In l ls -> Str.first_char l = Some c) ->
  filter (Str.starts_with (String a p)) ls = [].
Proof.
  intros Hc H. induction ls as [|x ls IH]; [reflexivity|].
  cbn [filter].
  rewrite (other_head_no_prefix a c p x); [|apply H; now left|exact Hc].
  apply IH. intros l Hl. apply H. now right.
Qed.






Lemma one_or_none_length (b : bool) (x : string) :
  List.length (if b then [x] else []) <= 1.
Proof. destruct b; simpl; lia. Qed.

Lemma Forall_one_or_none (P : string -> Prop) (b : bool) (x : string) :
  P x -> Forall P (if b then [x] else []).
Proof. intros H. destruct b; repeat constructor. exact H. Qed.

Lemma role_labels_length (task : Task) : List.length (role_labels task) <= 5.
Proof.
  unfold role_labels. destruct (Str.truthy _); [|simpl; lia].
  rewrite length_map.
  etransitivity; [apply filter_length_le|]. simpl. lia.
Qed.

(** X7. The label list of a task has between one and nine labels; each is
    [task] or starts with [status:], [phase:], [automation:] or [role:];
    none starts with [priority:], whatever the priority of the task. *)
Theorem labels_shape (task : Task) :
  1 <= List.length (get_labels_for_task task) <= 9
  /\ Forall
       (fun l =>
          (l = "task"
           \/ exists p, In p label_prefixes /\ Str.starts_with p l = true)
          /\ Str.starts_with "priority:" l = false)
       (get_labels_for_task task).
Proof.
  rewrite labels_by_field. split.
  - rewrite !length_app. cbn [List.length].
    assert (H1 := one_or_none_length (Str.truthy (status task))
                    ("status:" ++ Str.replace " " "-"
                                    (Str.lower (status task)))).
    assert (H2 := one_or_none_length (Str.truthy (phase task))
                    ("phase:" ++ phase task)).
    assert (H3 := one_or_none_length (Str.truthy (automation_category task))
                    ("automation:" ++ Str.lower (automation_category task))).
    assert (H4 := role_labels_length task).
    unfold status_labels, phase_labels, automation_labels. lia.
  - repeat (apply Forall_app; split).
    + unfold status_labels. apply Forall_one_or_none.
      split; [|reflexivity].
      right. exists "status:". split; [simpl; tauto | apply starts_with_app].
    + unfold phase_labels. apply Forall_one_or_none.
      split; [|reflexivity].
      right. exists "phase:". split; [simpl; tauto | apply starts_with_app].
    + unfold automation_labels. apply Forall_one_or_none.
      split; [|reflexivity].
      right. exists "automation:".
      split; [simpl; tauto | apply starts_with_app].
    + apply Forall_forall. intros l H. unfold role_labels in H.
      destruct (Str.truthy _); [|destruct H].
      apply in_map_iff in H as (e & <- & _). split; [|reflexivity].
      right. exists "role:". split; [simpl; tauto | apply starts_with_app].
    + constructor; [|constructor]. split; [now left | reflexivity].
Qed.

(** X8. The labels of a task depend on its status, phase, automation
    category and assignee only: two tasks that agree on these four fields
    get the same labels, whatever their other fields. *)
Theorem labels_depend_on_four_fields (task1 task2 : Task) :
  status task1 = status task2 ->
  phase task1 = phase task2 ->
  automation_category task1 = automation_category task2 ->
  assignee task1 = assignee task2 ->
  get_labels_for_task task1 = get_labels_for_task task2.
Proof.
  intros H1 H2 H3 H4. unfold get_labels_for_task.
  now rewrite H1, H2, H3, H4.
Qed.

Lemma labels_depend_on_four_fields_witness :
  get_labels_for_task
    (mkTask "T1" "One" "2" "1" "3" "Product Manager" "" "High" "To Do"
       "" "" "a, b" "" "Split" "" "" "")
  = get_labels_for_task
      (mkTask "T9" "Other" "2" "7" "1" "Product Manager" "T1" "Low" "To Do"
         "x" "y" "" "c" "Split" "m" "h" "n").
Proof.
  apply labels_depend_on_four_fields; reflexivity.
Defined.

(** X9. The only label of a task that starts with [phase:] is [phase:]
    followed by the phase as it is written, and the only one that starts
    with [automation:] is [automation:] followed by the category in lower
    case; an empty phase or category gives no such label. *)
Theorem phase_and_automation_labels (task : Task) :
  filter (Str.starts_with "phase:") (get_labels_for_task task)
  = (if Str.truthy (phase task) then ["phase:" ++ phase task] else [])
  /\ filter (Str.starts_with "automation:") (get_labels_for_task task)
     = (if Str.truthy (automation_category task)
        then ["automation:" ++ Str.lower (automation_category task)]
        else []).
Proof.
  rewrite labels_by_field, !filter_app. split.
  - rewrite (filter_prefix_none "p" "s" "hase:" (status_labels task))
      by (discriminate || apply status_labels_head).
    rewrite (filter_prefix_none "p" "a" "hase:" (automation_labels task))
      by (discriminate || apply automation_labels_head).
    rewrite (filter_prefix_none "p" "r" "hase:" (role_labels task))
      by (discriminate || apply role_labels_head).
    cbn [app]. replace (filter (Str.starts_with "phase:") ["task"])
      with (@nil string) by reflexivity.
    rewrite List.app_nil_r. unfold phase_labels.
    destruct (Str.truthy _); [|reflexivity].
    cbn [filter]. change (String "p" "hase:") with "phase:".
    now rewrite starts_with_app.
  - rewrite (filter_prefix_none "a" "s" "utomation:" (status_labels task))
      by (discriminate || apply status_labels_head).
    rewrite (filter_prefix_none "a" "p" "utomation:" (phase_labels task))
      by (discriminate || apply phase_labels_head).
    rewrite (filter_prefix_none "a" "r" "utomation:" (role_labels task))
      by (discriminate || apply role_labels_head).
    cbn [app]. replace (filter (Str.starts_with "automation:") ["task"])
      with (@nil string) by reflexivity.
    rewrite List.app_nil_r. unfold automation_labels.
    destruct (Str.truthy _); [|reflexivity].
    cbn [filter]. change (String "a" "utomation:") with "automation:".
    now rewrite starts_with_app.
Qed.

Lemma role_labels_in_catalog (task : Task) (l : string) :
  In l (role_labels task) -> In l catalog_names.
Proof.
  unfold role_labels. destruct (Str.truthy _); [|intros []].
  intros H. apply in_map_iff in H as (e & <- & He).
  apply filter_In in He as (He & _).
  simpl in He. destruct He as [<- | [<- | [<- | [<- | [<- | []]]]]];
    vm_compute; tauto.
Qed.

(** X10. Every [role:] label that the label generator gives a task, and
    the label [task], is the name of a label of the catalog that the
    bootstrap creates. *)
Theorem role_and_task_labels_in_catalog (task : Task) :
  Forall
    (fun l =>
       l = "task" \/ Str.starts_with "role:" l = true -> In l catalog_names)
    (get_labels_for_task task).
Proof.
  rewrite labels_by_field. repeat (apply Forall_app; split).
  - apply Forall_forall. intros l H [-> | Hr].
    + apply status_labels_head in H. discriminate H.
    + apply status_labels_head in H.
      rewrite (other_head_no_prefix "r" "s" "ole:" l H) in Hr
        by discriminate.
      discriminate Hr.
  - apply Forall_forall. intros l H [-> | Hr].
    + apply phase_labels_head in H. discriminate H.
    + apply phase_labels_head in H.
      rewrite (other_head_no_prefix "r" "p" "ole:" l H) in Hr
        by discriminate.
      discriminate Hr.
  - apply Forall_forall. intros l H [-> | Hr].
    + apply automation_labels_head in H. discriminate H.
    + apply automation_labels_head in H.
      rewrite (other_head_no_prefix "r" "a" "ole:" l H) in Hr
        by discriminate.
      discriminate Hr.
  - apply Forall_forall. intros l H _.
    exact (role_labels_in_catalog task l H).
  - constructor; [|constructor]. intros _. vm_compute. tauto.
Qed.

(** X11. For a task whose automation category is [human], [manus] or
    [split] up to the case of its letters, the automation label is
    [automation:] followed by that word in lower case, and it is the name of
    a label of the catalog. *)
Theorem automation_label_in_catalog (task : Task) (kw : string) :
  In kw ["human"; "manus"; "split"] ->
  Str.caseless_eq (automation_category task) kw ->
  In ("automation:" ++ kw) (get_labels_for_task task)
  /\ In ("automation:" ++ kw) catalog_names.
Proof.
  intros Hkw Hc. unfold Str.caseless_eq in Hc.
  assert (Hl : Str.lower kw = kw)
    by (simpl in Hkw; destruct Hkw as [<- | [<- | [<- | []]]]; reflexivity).
  rewrite Hl in Hc. split.
  - rewrite labels_by_field, !in_app_iff. right. right. left.
    unfold automation_labels.
    destruct (automation_category task) as [|c s] eqn:E.
    + simpl in Hc. subst kw. simpl in Hkw. intuition discriminate.
    + cbn [Str.truthy]. rewrite Hc. now left.
  - simpl in Hkw. destruct Hkw as [<- | [<- | [<- | []]]];
      vm_compute; tauto.
Qed.

Lemma automation_label_in_catalog_witness :
  In "automation:manus"
     (get_labels_for_task (sample_task "T2" "" "" "" "MaNuS"))
  /\ In "automation:manus" catalog_names.
Proof.
  apply (automation_label_in_catalog (sample_task "T2" "" "" "" "MaNuS")
           "manus").
  - simpl. tauto.
  - reflexivity.
Defined.

(** A status that the catalog knows under another spelling: the label of
    [To Do] is not the catalog's [status:todo]. *)
Example status_to_do_not_in_catalog :
  get_labels_for_task (sample_task "T1" "" "To Do" "" "")
  = ["status:to-do"; "phase:1"; "task"]
  /\ ~ In "status:to-do" catalog_names
  /\ In "status:todo" catalog_names.
Proof.
  split; [reflexivity|]. split; vm_compute; intuition discriminate.
Qed.

(** ** The issue body, further *)

(** X5. In the body of every task the dependencies section holds the
    dependencies after a hyphen, or [None] when there are none, and the
    notes section holds the notes, or [No additional notes] when there are
    none; the body begins with the overview heading and the identifier line,
    the Definition of Done follows the notes, and the body ends with the
    status line and a line feed. *)
Theorem body_sections_in_order (task : Task) :
  exists mid1 mid2,
    create_issue_body task
    = "## Task Overview" ++ nl ++ "**Task ID:** " ++ task_id task ++ nl
      ++ mid1
      ++ "## Dependencies" ++ nl
      ++ "List any tasks that must be completed before this one:" ++ nl
      ++ (if Str.truthy (dependencies task)
          then "- " ++ dependencies task else "None")
      ++ nl ++ mid2
      ++ "## Notes" ++ nl
      ++ (if Str.truthy (notes task)
          then notes task else "No additional notes")
      ++ nl ++ definition_of_done task ++ nl
      ++ nl ++ "---" ++ nl ++ nl
      ++ "**Start Date:** " ++ start_date task ++ "  " ++ nl
      ++ "**End Date:** " ++ end_date task ++ "  " ++ nl
      ++ "**Assignee:** " ++ assignee task ++ "  " ++ nl
      ++ "**Status:** " ++ status task ++ "  " ++ nl.
Proof.
  assert (E1 : lines (body_overview task)
               = "## Task Overview" ++ nl ++ "**Task ID:** " ++ task_id task
                 ++ nl ++ lines (skipn 2 (body_overview task)))
    by (unfold body_overview, lines, Str.join; cbn [String.concat skipn];
        reassociate; reflexivity).
  assert (E2 : lines (body_sections task)
               = lines (firstn 7 (body_sections task)) ++ nl
                 ++ "## Dependencies" ++ nl
                 ++ "List any tasks that must be completed before this one:"
                 ++ nl
                 ++ (if Str.truthy (dependencies task)
                     then "- " ++ dependencies task else "None")
                 ++ nl
                 ++ lines (firstn 6 (skipn 10 (body_sections task))) ++ nl
                 ++ "## Notes" ++ nl
                 ++ (if Str.truthy (notes task)
                     then notes task else "No additional notes")).
  { unfold body_sections, lines, Str.join.
    cbn [String.concat skipn firstn]. reassociate. reflexivity. }
  assert (E3 : lines (body_footer task)
               = nl ++ "---" ++ nl ++ nl
                 ++ "**Start Date:** " ++ start_date task ++ "  " ++ nl
                 ++ "**End Date:** " ++ end_date task ++ "  " ++ nl
                 ++ "**Assignee:** " ++ assignee task ++ "  " ++ nl
                 ++ "**Status:** " ++ status task ++ "  " ++ nl)
    by (unfold body_footer, lines, Str.join; cbn [String.concat];
        reassociate; reflexivity).
  exists (lines (skipn 2 (body_overview task)) ++ nl
          ++ automation_section task ++ nl
          ++ lines (firstn 7 (body_sections task)) ++ nl),
    (lines (firstn 6 (skipn 10 (body_sections task))) ++ nl).
  rewrite body_layout, E1, E2, E3. reassociate. reflexivity.
Qed.

(** ** The orchestrator, further *)


Lemma for_each_exact {A : Type} (req : A -> request) (ln : A -> line)
  (body : A -> M unit) (xs : list A) :
  (forall x w,
      body x w = (Ok tt, mkWorld (sent w ++ [req x]) (console w ++ [ln x]))) ->
  forall w,
    for_each xs body w
    = (Ok tt,
       mkWorld (sent w ++ List.map req xs) (console w ++ List.map ln xs)).
Proof.
  intros Hbody. induction xs as [|x xs IH]; intros w.
  - simpl. unfold ret. rewrite !List.app_nil_r. now destruct w.
  - cbn [for_each]. unfold bind. rewrite Hbody, IH. cbn [sent console].
    cbn [List.map]. now rewrite <- !List.app_assoc.
Qed.

Section Rerun.

Variable tr : tracker.

Hypothesis conflict_everywhere :
  forall reqs, exists r, tr reqs = Returns r /\ status_code r = 422%Z.

Lemma create_labels_rerun (w : world) :
  create_labels tr w
  = (Ok tt,
     mkWorld (sent w ++ List.map label_request labels_to_create)
       (console w ++ [CreatingLabels] ++ List.map LabelExists catalog_names
        ++ [LabelsCompleted])).
Proof.
  assert (Hl : forall x w0,
             create_label tr x w0
             = (Ok tt,
                mkWorld (sent w0 ++ [label_request x])
                  (console w0 ++ [LabelExists (fst (fst x))]))).
  { intros x w0. rewrite create_label_run. unfold label_line.
    destruct (conflict_everywhere (sent w0 ++ [label_request x])%list)
      as (r & -> & Hs).
    now rewrite Hs. }
  unfold create_labels.
  unfold bind at 1. unfold print at 1. unfold push.
  unfold bind at 1.
  rewrite (for_each_exact label_request
             (fun x => LabelExists (fst (fst x))) (create_label tr)
             labels_to_create Hl).
  unfold print, push. cbn [sent console]. unfold catalog_names.
  rewrite List.map_map. now rewrite <- !List.app_assoc.
Qed.

Lemma create_milestones_rerun (w : world) :
  create_milestones tr w
  = (Ok tt,
     mkWorld
       (sent w
        ++ List.map
             (fun m =>
                milestone_data (fst (fst m)) (snd (fst m)) (Some (snd m)))
             milestones)
       (console w ++ [CreatingMilestones]
        ++ List.map (fun m => MilestoneExists (fst (fst m))) milestones
        ++ [MilestonesCompleted])).
Proof.
  assert (Hm : forall x w0,
             (create_milestone tr (fst (fst x)) (snd (fst x))
                (Some (snd x)) ;; ret tt) w0
             = (Ok tt,
                mkWorld
                  (sent w0
                   ++ [milestone_data (fst (fst x)) (snd (fst x))
                         (Some (snd x))])
                  (console w0 ++ [MilestoneExists (fst (fst x))]))).
  { intros x w0.
    destruct (create_milestone_run tr (fst (fst x)) (snd (fst x))
                (Some (snd x)) w0) as (result & E).
    unfold bind. rewrite E. unfold ret. f_equal. f_equal. f_equal.
    unfold milestone_line.
    destruct (conflict_everywhere
                (sent w0
                 ++ [milestone_data (fst (fst x)) (snd (fst x))
                       (Some (snd x))])%list) as (r & -> & Hs).
    now rewrite Hs. }
  unfold create_milestones.
  unfold bind at 1. unfold print at 1. unfold push.
  unfold bind at 1.
  rewrite (for_each_exact
             (fun m =>
                milestone_data (fst (fst m)) (snd (fst m)) (Some (snd m)))
             (fun x => MilestoneExists (fst (fst x))) _ milestones Hm).
  unfold print, push. cbn [sent console].
  now rewrite <- !List.app_assoc.
Qed.

End Rerun.

(** X14. Against a tracker that answers every request of the bootstrap
    with status 422, as a repository that was bootstrapped before does,
    [create_labels] followed by [create_milestones] sends the whole catalog
    and prints, between the opening and closing lines, one already-exists
    line per label and per milestone, and no failure line. *)
Theorem bootstrap_rerun_reports_existing (tr : tracker) (w : world) :
  (forall reqs, exists r, tr reqs = Returns r /\ status_code r = 422%Z) ->
  let printed :=
    ([CreatingLabels] ++ List.map LabelExists catalog_names
     ++ [LabelsCompleted; CreatingMilestones]
     ++ List.map (fun m => MilestoneExists (fst (fst m))) milestones
     ++ [MilestonesCompleted])%list in
  (create_labels tr ;; create_milestones tr) w
  = (Ok tt,
     mkWorld (sent w ++ bootstrap_requests) (console w ++ printed))
  /\ filter is_failure_line printed = [].
Proof.
  intros H printed. split; [|reflexivity].
  unfold bind. rewrite (create_labels_rerun tr H).
  rewrite (create_milestones_rerun tr H). cbn [sent console].
  subst printed. unfold bootstrap_requests. f_equal. f_equal.
  - now rewrite <- !List.app_assoc.
  - now rewrite <- !List.app_assoc.
Qed.

Lemma bootstrap_rerun_reports_existing_witness :
  let tr : tracker :=
    fun _ => Returns (mkResponse 422 NoJson "Validation Failed") in
  fst ((create_labels tr ;; create_milestones tr) start) = Ok tt
  /\ List.length
       (console (snd ((create_labels tr ;; create_milestones tr) start)))
     = 28.
Proof.
  intros tr.
  destruct (bootstrap_rerun_reports_existing tr start) as (E & _).
  - intros reqs. eexists. split; reflexivity.
  - rewrite E. split; reflexivity.
Defined.

(** X15. [create_milestone] returns a milestone exactly when the tracker
    answers with status 201 and a body that decodes; a conflict (status 422)
    gives [None], as a failure does; and the request carries no due date
    when none is given or when it is empty. *)
Theorem create_milestone_result (tr : tracker) (name description : string)
  (due_date : option string) (w : world) :
  let o := tr (sent w ++ [milestone_data name description due_date])%list in
  (forall milestone,
      fst (create_milestone tr name description due_date w)
      = Ok (Some milestone)
      <-> exists r number,
          o = Returns r /\ status_code r = 201%Z
          /\ json r = Json number /\ milestone = Json number)
  /\ (forall r,
        o = Returns r -> status_code r = 422%Z ->
        fst (create_milestone tr name description due_date w) = Ok None)
  /\ (due_date = None \/ due_date = Some "" ->
      milestone_data name description due_date
      = PostMilestone name description None).
Proof.
  intros o. unfold create_milestone, bind, post, print, ret, push.
  cbn [sent console]. fold o. split; [|split].
  - intros milestone. destruct o as [|r].
    + split; [discriminate | intros (r & n & H & _); discriminate].
    + destruct (Z.eqb_spec (status_code r) 201) as [E | E].
      * destruct (json r) as [|n] eqn:Ej; cbn [fst].
        -- split; [discriminate|].
           intros (r' & n & [= <-] & _ & H & _). congruence.
        -- split.
           ++ intros [= <-]. now exists r, n.
           ++ intros (r' & n' & [= <-] & _ & H & ->). congruence.
      * destruct (status_code r =? 422)%Z; cbn [fst];
          (split; [discriminate|]);
          intros (r' & n & [= <-] & H & _); contradiction.
  - intros r -> H. rewrite H. reflexivity.
  - intros [-> | ->]; reflexivity.
Qed.

Lemma create_milestone_result_witness :
  fst (create_milestone conflicts_and_refusals "Phase 1" "Backend"
         (Some "2025-08-14T23:59:59Z") start) = Ok None
  /\ milestone_data "Phase 1" "Backend" (Some "")
     = PostMilestone "Phase 1" "Backend" None.
Proof.
  split.
  - apply (proj1 (proj2 (create_milestone_result conflicts_and_refusals
                           "Phase 1" "Backend"
                           (Some "2025-08-14T23:59:59Z") start))
             (mkResponse 422 NoJson "Validation Failed"));
      reflexivity.
  - apply (proj2 (proj2 (create_milestone_result conflicts_and_refusals
                           "Phase 1" "Backend" (Some "") start))).
    now right.
Defined.

Section Counts.

Variable tr : tracker.




End Counts.



(** ** The entry point *)

Lemma copies_length (n : nat) : String.length (copies "*" n) = n.
Proof. induction n as [|n IH]; simpl; [reflexivity | now rewrite IH]. Qed.

Lemma drop_length (k : nat) (s : string) :
  String.length (Str.drop k s) = String.length s - k.
Proof.
  revert k; induction s as [|c s IH]; intros [|k]; simpl; auto.
Qed.

Lemma drop_all (k : nat) (s : string) :
  k = 0 -> Str.drop k s = s.
Proof. now intros ->. Qed.

(** X16. The token that [main] prints is as long as the token; a token of
    four characters or fewer is printed as it is, nothing hidden; of a
    longer one the last four characters are printed and each character
    before them is replaced by an asterisk. *)
Theorem masked_token_shape (token : string) :
  String.length (masked_token token) = String.length token
  /\ (String.length token <= 4 -> masked_token token = token)
  /\ (forall hidden shown,
         token = hidden ++ shown -> String.length shown = 4 ->
         masked_token token = copies "*" (String.length hidden) ++ shown).
Proof.
  unfold masked_token, str_repeat, slice_from.
  change (-4 <? 0)%Z with true. cbv iota.
  split; [|split].
  - rewrite str_length_app, copies_length, drop_length. lia.
  - intros H.
    replace (Z.to_nat (Z.of_nat (String.length token) - 4)) with 0 by lia.
    apply drop_all. lia.
  - intros hidden shown -> H. rewrite str_length_app, H.
    replace (Z.to_nat (Z.of_nat (String.length hidden + 4) - 4))
      with (String.length hidden) by lia.
    replace (Z.to_nat
               (Z.max (Z.of_nat (String.length hidden + 4) + -4) 0))
      with (String.length hidden) by lia.
    now rewrite str_drop_app.
Qed.

Lemma masked_token_shape_witness :
  masked_token "abcd" = "abcd"
  /\ masked_token ("ghp_secret" ++ "9f3a") = "**********9f3a".
Proof.
  split.
  - apply (proj1 (proj2 (masked_token_shape "abcd"))). simpl. lia.
  - apply (proj2 (proj2 (masked_token_shape ("ghp_secret" ++ "9f3a")))
             "ghp_secret" "9f3a"); reflexivity.
Defined.

Lemma lower_char_is_y (c : ascii) :
  Str.lower_char c = "y"%char <-> c = "y"%char \/ c = "Y"%char.
Proof.
  destruct c as [[] [] [] [] [] [] [] []]; vm_compute;
    (split; [intros H; first [discriminate H | tauto]
            | intros [H | H]; first [discriminate H | reflexivity]]).
Qed.

(** The answers that [main] takes for a yes. *)
Lemma lower_is_y (s : string) :
  Str.lower s = "y" <-> s = "y" \/ s = "Y".
Proof.
  destruct s as [|c [|d s]].
  - simpl. split; [discriminate | intros [H | H]; discriminate H].
  - unfold Str.lower. cbn [Str.map]. split.
    + intros [= H]. apply lower_char_is_y in H as [-> | ->]; tauto.
    + intros [[= ->] | [= ->]]; reflexivity.
  - unfold Str.lower. cbn [Str.map]. split.
    + discriminate.
    + intros [H | H]; discriminate H.
Qed.

Lemma main_confirm_test (confirm : string) :
  negb (Str.lower confirm =? "y") = false <-> confirm = "y" \/ confirm = "Y".
Proof.
  rewrite <- lower_is_y.
  destruct (String.eqb_spec (Str.lower confirm) "y"); simpl;
    split; congruence.
Qed.

(** X17. Without the variable [GITHUB_TOKEN], or with an empty one, [main]
    ends with exit status 1 after its three lines of help, whatever the
    rest of the environment, the answer, the network and the files: nothing
    is read and nothing is sent. *)
Theorem main_without_token (env : environment) (confirm : string)
  (net : network) (fs : file_system) :
  env "GITHUB_TOKEN" = None \/ env "GITHUB_TOKEN" = Some "" ->
  main env confirm net fs
  = mkMainRun (Exit 1) [TokenRequired; TokenPlease; TokenExport] start.
Proof. intros [H | H]; unfold main; now rewrite H. Qed.

Lemma main_without_token_witness :
  main no_environment "y" open_network sample_files
  = mkMainRun (Exit 1) [TokenRequired; TokenPlease; TokenExport] start.
Proof.
  apply (main_without_token no_environment "y" open_network sample_files).
  now left.
Defined.

(** X18. With a token, any answer to the prompt other than [y] or [Y], the
    empty answer and [yes] included, ends [main] with exit status 0 after
    the cancellation line; the orchestrator has not run. *)
Theorem main_cancelled_unless_y (env : environment) (confirm token : string)
  (net : network) (fs : file_system) :
  env "GITHUB_TOKEN" = Some token -> token <> "" ->
  confirm <> "y" -> confirm <> "Y" ->
  main env confirm net fs
  = mkMainRun (Exit 0)
      [ Repository (getenv env "GITHUB_REPO_OWNER" "bianca-git")
          (getenv env "GITHUB_REPO_NAME" "fylgja");
        CsvFile (getenv env "TASKS_CSV_FILE" "tasks_redesigned.csv");
        TokenMasked (masked_token token);
        EmptyLine; ProceedPrompt; OperationCancelled ]
      start.
Proof.
  intros Ht Hne H1 H2. unfold main. rewrite Ht.
  destruct token as [|c token]; [congruence|].
  destruct (negb (Str.lower confirm =? "y")) eqn:E; [reflexivity|].
  apply main_confirm_test in E. tauto.
Qed.

Lemma main_cancelled_unless_y_witness :
  main token_only "yes" open_network sample_files
  = mkMainRun (Exit 0)
      [ Repository "bianca-git" "fylgja";
        CsvFile "tasks_redesigned.csv";
        TokenMasked "**********6789";
        EmptyLine; ProceedPrompt; OperationCancelled ]
      start.
Proof.
  apply (main_cancelled_unless_y token_only "yes" "ghp_0123456789"
           open_network sample_files);
    first [reflexivity | discriminate].
Defined.

(** X19. [main] sends a request to the tracker only when the environment
    holds a token that is not empty and the answer to the prompt is [y] or
    [Y]. *)
Theorem tracker_contacted_only_after_confirmation (env : environment)
  (confirm : string) (net : network) (fs : file_system) :
  sent (orchestrated (main env confirm net fs)) <> [] ->
  (exists token, env "GITHUB_TOKEN" = Some token /\ token <> "")
  /\ (confirm = "y" \/ confirm = "Y").
Proof.
  unfold main. destruct (env "GITHUB_TOKEN") as [[|c token]|];
    cbn [orchestrated sent start]; try congruence.
  destruct (negb (Str.lower confirm =? "y")) eqn:E;
    cbn [orchestrated sent start]; [congruence|].
  intros _. split.
  - eexists. split; [reflexivity | discriminate].
  - now apply main_confirm_test.
Qed.

Lemma tracker_contacted_only_after_confirmation_witness :
  (exists token, token_only "GITHUB_TOKEN" = Some token /\ token <> "")
  /\ ("Y" = "y" \/ "Y" = "Y").
Proof.
  apply (tracker_contacted_only_after_confirmation token_only "Y"
           open_network sample_files).
  vm_compute. discriminate.
Defined.



(** A variable that is set to the empty text is used as it is: the default
    is for a variable that is not set. *)
Example main_empty_variable :
  main_console (main full_environment "n" open_network sample_files)
  = [ Repository "octo" ""; CsvFile "no_notes.csv"; TokenMasked "abc";
      EmptyLine; ProceedPrompt; OperationCancelled ].
Proof. reflexivity. Qed.
